(** * A two-pass assembler for a 32-bit instruction set (new.py)

    Shallow embedding of the assembler engine of [new.py]: the opcode and
    register tables, the label resolver [first_pass], the bit-field packer
    [format_binary], the per-line encoder [assemble_instruction] and the
    driver loop of [assemble_file], followed by the properties of the
    natural-language specification.

    Conventions.
    - A Python [str] is a [string]; a character is a code point below 256.
      The built-ins ([strip], [split], [isdigit], [upper], [int], [format])
      are modelled on such text in the module [Py].
    - A Python [int] is a [Z]; [&] is [Z.land], [~] is [Z.lnot] and [<<] is
      [Z.shiftl] (two's complement on negative numbers, as in Python).
    - The module-level variables [symbol_table] and [last_cmp] are the two
      fields of the record [globals], threaded explicitly through both passes.
    - A raised [ValueError] is a value of the type [ValueError]; no other
      exception can escape the modelled functions.
    - [print] calls (diagnostics) are not modelled. *)

From Stdlib Require Import ZArith Ascii String List Lia Bool.
From stdpp Require Import gmap strings.

Local Open Scope Z_scope.

(** ** Python built-ins used by the assembler *)

Module Py.

(** [str.isspace] on one character: TAB..CR, FS..US, space, NEL and NBSP are
    the white-space code points below 256. *)
Definition isspace (c : ascii) : bool :=
  let n := Z.of_N (N_of_ascii c) in
  ((9 <=? n) && (n <=? 13)) || ((28 <=? n) && (n <=? 32))
  || (n =? 133) || (n =? 160).

(** [str.isdigit] on one character: the ten ASCII digits and the three
    superscript digits of Latin-1 (which [int] nevertheless rejects). *)
Definition isdigit_char (c : ascii) : bool :=
  let n := Z.of_N (N_of_ascii c) in
  ((48 <=? n) && (n <=? 57)) || (n =? 178) || (n =? 179) || (n =? 185).

(** [str.upper] on one character.  Letters a..z are mapped to A..Z.  A
    character above 127 is left as it is: Python maps it to text without
    the letter R and without digits, so the look-ups in [REGISTERS], the only
    consumers of [upper] in the program, agree with this model. *)
Definition upper_char (c : ascii) : ascii :=
  let n := N_of_ascii c in
  if ((97 <=? n) && (n <=? 122))%N then ascii_of_N (n - 32) else c.

Fixpoint upper (s : string) : string :=
  match s with
  | EmptyString => EmptyString
  | String c r => String (upper_char c) (upper r)
  end.

(** [s.isdigit()]: non-empty and made of digits only. *)
Fixpoint all_digits (s : string) : bool :=
  match s with
  | EmptyString => true
  | String c r => isdigit_char c && all_digits r
  end.

Definition isdigit (s : string) : bool :=
  match s with
  | EmptyString => false
  | _ => all_digits s
  end.

(** [s.lstrip(ch)] for a single character [ch]. *)
Fixpoint lstrip_char (ch : ascii) (s : string) : string :=
  match s with
  | String c r => if Ascii.eqb c ch then lstrip_char ch r else s
  | EmptyString => EmptyString
  end.

(** [s.lstrip()], [s.rstrip()] and [s.strip()] (white space). *)
Fixpoint lstrip (s : string) : string :=
  match s with
  | String c r => if isspace c then lstrip r else s
  | EmptyString => EmptyString
  end.

Fixpoint rstrip (s : string) : string :=
  match s with
  | EmptyString => EmptyString
  | String c r =>
      match rstrip r with
      | EmptyString => if isspace c then EmptyString else String c EmptyString
      | r' => String c r'
      end
  end.

Definition strip (s : string) : string := rstrip (lstrip s).

(** [s.split(sep)[0]] and the first component of [s.split(sep, 1)]: the text
    before the first [sep] (all of [s] when [sep] does not occur). *)
Fixpoint before (sep : ascii) (s : string) : string :=
  match s with
  | EmptyString => EmptyString
  | String c r => if Ascii.eqb c sep then EmptyString else String c (before sep r)
  end.

(** The second component of [s.split(sep, 1)]: the text after the first
    [sep]; [None] exactly when [sep in s] is false. *)
Fixpoint after (sep : ascii) (s : string) : option string :=
  match s with
  | EmptyString => None
  | String c r => if Ascii.eqb c sep then Some r else after sep r
  end.

(** [s.replace(ch, "")]. *)
Fixpoint remove_char (ch : ascii) (s : string) : string :=
  match s with
  | EmptyString => EmptyString
  | String c r => if Ascii.eqb c ch then remove_char ch r else String c (remove_char ch r)
  end.

(** [s.split()]: the maximal runs of non-white-space characters.  [cur] is
    the run being read. *)
Fixpoint split_from (cur : string) (s : string) : list string :=
  match s with
  | EmptyString => match cur with EmptyString => [] | _ => [cur] end
  | String c r =>
      if isspace c then
        match cur with
        | EmptyString => split_from EmptyString r
        | _ => cur :: split_from EmptyString r
        end
      else split_from (cur +:+ String c EmptyString) r
  end.

Definition split (s : string) : list string := split_from EmptyString s.

(** [s.endswith(ch)] for a single character [ch]. *)
Fixpoint endswith_char (ch : ascii) (s : string) : bool :=
  match s with
  | EmptyString => false
  | String c EmptyString => Ascii.eqb c ch
  | String _ r => endswith_char ch r
  end.

(** [s.startswith(p)]. *)
Fixpoint startswith (p s : string) : bool :=
  match p, s with
  | EmptyString, _ => true
  | String a p', String b s' => Ascii.eqb a b && startswith p' s'
  | String _ _, EmptyString => false
  end.

(** [str(x)] for an optional string, as an f-string renders it. *)
Definition str_opt (x : option string) : string :=
  match x with
  | Some s => s
  | None => "None"
  end.

(** *** Integer literals: [int(s)] and [int(s, base)] *)

(** Value of a character as a digit (letters count from ten, both cases). *)
Definition digit_value (c : ascii) : option Z :=
  let n := Z.of_N (N_of_ascii c) in
  if (48 <=? n) && (n <=? 57) then Some (n - 48)
  else if (97 <=? n) && (n <=? 122) then Some (n - 87)
  else if (65 <=? n) && (n <=? 90) then Some (n - 55)
  else None.

(** The digit loop of [int]: digits below [base], single underscores allowed
    between digits.  Returns the value and the number of digits read. *)
Fixpoint scan_digits (base : Z) (prev_underscore : bool) (acc : Z) (n : nat)
    (s : string) : option (Z * nat) :=
  match s with
  | EmptyString => if prev_underscore then None else Some (acc, n)
  | String c r =>
      if Ascii.eqb c "_"%char then
        if prev_underscore then None else scan_digits base true acc n r
      else
        match digit_value c with
        | Some d =>
            if d <? base then scan_digits base false (acc * base + d) (S n) r
            else None
        | None => None
        end
  end.

(** The white space that [int] skips around a literal: the one of
    [str.isspace] without the separators FS..US. *)
Definition isspace_int (c : ascii) : bool :=
  let n := Z.of_N (N_of_ascii c) in
  ((9 <=? n) && (n <=? 13)) || (n =? 32) || (n =? 133) || (n =? 160).

Fixpoint int_lstrip (s : string) : string :=
  match s with
  | String c r => if isspace_int c then int_lstrip r else s
  | EmptyString => EmptyString
  end.

Fixpoint int_rstrip (s : string) : string :=
  match s with
  | EmptyString => EmptyString
  | String c r =>
      match int_rstrip r with
      | EmptyString => if isspace_int c then EmptyString else String c EmptyString
      | r' => String c r'
      end
  end.

(** Optional sign. *)
Definition take_sign (s : string) : bool * string :=
  match s with
  | String c r =>
      if Ascii.eqb c "-"%char then (true, r)
      else if Ascii.eqb c "+"%char then (false, r)
      else (false, s)
  | EmptyString => (false, s)
  end.

(** Optional base prefix ([0x], [0o], [0b], either case), after which one
    underscore is allowed. *)
Definition take_prefix (base : Z) (s : string) : string :=
  match s with
  | String z (String p r) =>
      if Ascii.eqb z "0"%char &&
         (((base =? 16) && (Ascii.eqb p "x"%char || Ascii.eqb p "X"%char))
          || ((base =? 8) && (Ascii.eqb p "o"%char || Ascii.eqb p "O"%char))
          || ((base =? 2) && (Ascii.eqb p "b"%char || Ascii.eqb p "B"%char)))
      then match r with
           | String u r' => if Ascii.eqb u "_"%char then r' else r
           | EmptyString => r
           end
      else s
  | _ => s
  end.

(** The interpreter's cap on the number of digits of a literal in a base
    that is not a power of two (its default value). *)
Definition int_max_str_digits : nat := 4300.

Definition is_power_of_two_base (base : Z) : bool :=
  (base =? 2) || (base =? 4) || (base =? 8) || (base =? 16) || (base =? 32).

(** [int(s, base)] for an explicit base from 2 to 36; [None] stands for the
    [ValueError] that [int] raises on a malformed literal. *)
Definition int (base : Z) (s : string) : option Z :=
  let '(neg, s1) := take_sign (int_rstrip (int_lstrip s)) in
  let s2 := take_prefix base s1 in
  match s2 with
  | String c _ =>
      if Ascii.eqb c "_"%char then None
      else
        match scan_digits base false 0 0 s2 with
        | Some (v, n) =>
            if negb (is_power_of_two_base base) && (int_max_str_digits <? n)%nat
            then None
            else Some (if neg then - v else v)
        | None => None
        end
  | EmptyString => None
  end.

(** *** Number formatting: [format(n, '0Wb')] and [format(n, '0WX')] *)

Definition digit_char (d : Z) : ascii :=
  if d <? 10 then ascii_of_N (Z.to_N (48 + d)) else ascii_of_N (Z.to_N (55 + d)).

(** Digits of a non-negative number, most significant first. *)
Fixpoint to_base_fuel (base : Z) (fuel : nat) (n : Z) : string :=
  match fuel with
  | O => EmptyString
  | S f =>
      (if n / base =? 0 then EmptyString else to_base_fuel base f (n / base))
      +:+ String (digit_char (n mod base)) EmptyString
  end.

Definition to_base (base : Z) (n : Z) : string :=
  to_base_fuel base (S (Z.to_nat (Z.log2 n))) n.

Fixpoint zeros (k : nat) : string :=
  match k with
  | O => EmptyString
  | S k' => String "0"%char (zeros k')
  end.

Definition zfill (width : nat) (s : string) : string :=
  zeros (width - String.length s) +:+ s.

(** [format(n, '0<width>b')] for [base = 2] and [format(n, '0<width>X')] for
    [base = 16]: sign-aware zero padding to [width] characters. *)
Definition format_int (base : Z) (width : nat) (n : Z) : string :=
  if n <? 0 then String "-"%char (zfill (width - 1) (to_base base (- n)))
  else zfill width (to_base base n).

End Py.

(** ** Tables *)

(** A dictionary literal with distinct keys, read with [dict_get]. *)
Fixpoint dict_get {V : Type} (d : list (string * V)) (k : string) : option V :=
  match d with
  | [] => None
  | (k', v) :: d' => if String.eqb k k' then Some v else dict_get d' k
  end.

(** [x in [a, b, ...]] on strings. *)
Definition str_in (x : string) (l : list string) : bool :=
  existsb (String.eqb x) l.

(** Opcode mappings (5-bit). *)
Definition OPCODES : list (string * string) :=
  [ ("ADD", "00000"); ("SUB", "00001"); ("MUL", "00010"); ("DIV", "00011");
    ("MOD", "00100"); ("CMP", "00101"); ("AND", "00110"); ("OR", "00111");
    ("NOT", "01000"); ("MOV", "01001"); ("MOVU", "01001"); ("MOVH", "01001");
    ("LSL", "01010"); ("LSR", "01011"); ("ASR", "01100"); ("NOP", "01101");
    ("LD", "01110"); ("ST", "01111"); ("BEQ", "10000"); ("BGT", "10001");
    ("B", "10010"); ("CALL", "10011"); ("RET", "10100"); ("END", "11111");
    ("HLT", "11111") ].

(** Register mappings (4-bit). *)
Definition REGISTERS : list (string * string) :=
  [ ("R0", "0000"); ("R1", "0001"); ("R2", "0010"); ("R3", "0011");
    ("R4", "0100"); ("R5", "0101"); ("R6", "0110"); ("R7", "0111");
    ("R8", "1000"); ("R9", "1001"); ("R10", "1010"); ("R11", "1011");
    ("R12", "1100"); ("R13", "1101"); ("R14", "1110"); ("R15", "1111") ].

(** [REGISTERS.get(tok.upper())]: [None] for a token that names no register. *)
Definition reg (tok : string) : option string :=
  dict_get REGISTERS (Py.upper tok).

(** ** Module-level state *)

(** [symbol_table] stores label addresses; [last_cmp] is [None] until a CMP
    is encoded and then holds its two operand descriptors, each of which is
    a register code, the text of an immediate, or [None] for a token that
    names no register. *)
Record globals : Type := Globals {
  symbol_table : gmap string Z;
  last_cmp : option (option string * option string)
}.

(** The state of a freshly started process. *)
Definition fresh : globals := {| symbol_table := ∅; last_cmp := None |}.

(** The [ValueError]s of the program, by message. *)
Inductive ValueError : Type :=
| UnknownInstruction (inst : string)
| InvalidSyntax (inst line : string)
| MustFollowCmp (inst : string)
| InvalidInstructionFormat (line : string)
| InvalidLiteral (base : Z) (text : string).

(** What a call does: return a value or raise. *)
Inductive outcome (A : Type) : Type :=
| Return (a : A)
| Raise (e : ValueError).
Arguments Return {A} a.
Arguments Raise {A} e.

(** ** Pass 1: the symbol resolver *)

(** One iteration of the loop of [first_pass], on the table and [pc]. *)
Definition first_pass_line (st : gmap string Z * Z) (line : string)
    : gmap string Z * Z :=
  let '(tbl, pc) := st in
  let stripped := Py.before "#" (Py.strip line) in
  match stripped with
  | EmptyString => st
  | _ =>
      match Py.after ":" stripped with
      | Some rest =>
          let label := Py.before ":" stripped in
          let tbl' := <[Py.strip label := Z.land pc (Z.lnot 3)]> tbl in
          match Py.strip rest with
          | EmptyString => (tbl', pc)
          | _ => (tbl', pc + 4)
          end
      | None => (tbl, pc + 4)
      end
  end.

Definition first_pass_loop (tbl : gmap string Z) (pc : Z) (lines : list string)
    : gmap string Z * Z :=
  fold_left first_pass_line lines (tbl, pc).

(** [first_pass(lines)]: record label addresses. *)
Definition first_pass (g : globals) (lines : list string) : globals :=
  {| symbol_table := fst (first_pass_loop (symbol_table g) 0 lines);
     last_cmp := last_cmp g |}.

(** ** Pass 2: the instruction encoder *)

Definition format_binary (opcode i : string) (rd rs1 rs2 : option string)
    (imm : option Z) : string :=
  match imm with
  | Some imm =>
      let imm_bin := Py.format_int 2 18 (Z.land imm 262143) in
      opcode +:+ i +:+ Py.str_opt rd +:+ Py.str_opt rs1 +:+ imm_bin
  | None =>
      opcode +:+ i +:+ Py.str_opt rd +:+ Py.str_opt rs1 +:+ Py.str_opt rs2
      +:+ Py.zeros 14
  end.

(** The tokens of a line that [assemble_instruction] dispatches on: commas
    removed, split on white space, a leading [label:] token dropped. *)
Definition instruction_tokens (line : string) : list string :=
  let parts := Py.split (Py.remove_char "," line) in
  match parts with
  | p0 :: tl => if Py.endswith_char ":" p0 then tl else parts
  | [] => []
  end.

(** [parts[k].lstrip('-').isdigit()]. *)
Definition is_immediate (tok : string) : bool :=
  Py.isdigit (Py.lstrip_char "-" tok).

(** [int(tok) & 0x3FFFF], raising when [int] does. *)
Definition imm18 (tok : string) (k : Z -> outcome (option string) * globals)
    (g : globals) : outcome (option string) * globals :=
  match Py.int 10 tok with
  | Some n => k (Z.land n 262143)
  | None => (Raise (InvalidLiteral 10 tok), g)
  end.

(** The branch and call layout: opcode, then the 27-bit offset to the
    target, relative to the following word. *)
Definition branch_word (g : globals) (opcode label : string) (pc : Z) : string :=
  let target_address := default 0 (symbol_table g !! label) in
  let offset := target_address - (pc + 4) in
  let address := Py.format_int 2 27 (Z.land offset 134217727) in
  opcode +:+ address.

(** The body of [assemble_instruction] from [inst = parts[0]] on. *)
Definition encode (g : globals) (line : string) (pc : Z) (parts : list string)
    : outcome (option string) * globals :=
  match parts with
  | [] => (Return None, g)
  | inst :: _ =>
    match dict_get OPCODES inst with
    | None => (Raise (UnknownInstruction inst), g)
    | Some opcode =>
      let invalid := (Raise (InvalidInstructionFormat line), g) in
      if str_in inst ["ADD"; "SUB"; "MUL"; "DIV"; "LSL"; "LSR"; "ASR"; "AND";
                      "OR"; "MOD"; "LD"; "ST"] then
        match parts with
        | [_; p1; p2; p3] =>
            if is_immediate p3 then
              imm18 p3 (fun imm =>
                (Return (Some (format_binary opcode "1" (reg p1) (reg p2)
                                 (Some "0000") (Some imm))), g)) g
            else
              (Return (Some (format_binary opcode "0" (reg p1) (reg p2)
                               (reg p3) None)), g)
        | _ => invalid
        end
      else if String.eqb inst "CMP" then
        match parts with
        | [_; p1; p2] =>
            if is_immediate p2 then
              imm18 p2 (fun imm =>
                (Return (Some (format_binary opcode "1" (Some "0000") (reg p1)
                                 (Some "0000") (Some imm))),
                 {| symbol_table := symbol_table g;
                    last_cmp := Some (reg p1, Some (Py.to_base 10 imm)) |})) g
            else
              (Return (Some (format_binary opcode "0" (Some "0000") (reg p1)
                               (reg p2) None)),
               {| symbol_table := symbol_table g;
                  last_cmp := Some (reg p1, reg p2) |})
        | _ => invalid
        end
      else if str_in inst ["NOT"; "MOV"] then
        match parts with
        | [_; p1; p2] =>
            if is_immediate p2 then
              imm18 p2 (fun imm =>
                (Return (Some (format_binary opcode "1" (reg p1) (Some "0000")
                                 (Some "0000") (Some imm))), g)) g
            else
              (Return (Some (format_binary opcode "0" (reg p1) (Some "0000")
                               (reg p2) None)), g)
        | _ => invalid
        end
      else if str_in inst ["MOVU"; "MOVH"] then
        match parts with
        | [_; p1; p2] =>
            let imm_str := Py.strip p2 in
            let base := if Py.startswith "0x" imm_str then 16 else 10 in
            match Py.int base imm_str with
            | None => (Raise (InvalidLiteral base imm_str), g)
            | Some imm =>
                let imm :=
                  if String.eqb inst "MOVU" then Z.land imm 65535
                  else Z.land (Z.shiftl imm 16) 262143 in
                (Return (Some (format_binary opcode "1" (reg p1) (Some "0000")
                                 (Some "0000") (Some imm))), g)
            end
        | _ => invalid
        end
      else if str_in inst ["BEQ"; "BGT"] then
        match parts with
        | [_; label] =>
            match last_cmp g with
            | None => (Raise (MustFollowCmp inst), g)
            | Some _ => (Return (Some (branch_word g opcode label pc)), g)
            end
        | _ => (Raise (InvalidSyntax inst line), g)
        end
      else if str_in inst ["B"; "CALL"] then
        match parts with
        | [_; label] => (Return (Some (branch_word g opcode label pc)), g)
        | _ => invalid
        end
      else if str_in inst ["RET"; "NOP"; "HLT"; "END"] then
        (Return (Some (opcode +:+ "000000000000000000000000000")), g)
      else invalid
    end
  end.

(** [assemble_instruction(line, pc)]: [Return None] for a line without an
    instruction, [Return (Some word)] for an encoded one, together with the
    module-level state after the call. *)
Definition assemble_instruction (g : globals) (line : string) (pc : Z)
    : outcome (option string) * globals :=
  encode g line pc (instruction_tokens line).

(** ** The driver *)

(** The observable result of a run of [assemble_file]: the lines written to
    the two output files, the error that ended the run (if any), and the
    module-level state and program counter when it ended. *)
Record run : Type := Run {
  bin_lines : list string;
  hex_lines : list string;
  failure : option ValueError;
  final_globals : globals;
  final_pc : Z
}.

(** The encoding loop of [assemble_file]; [bin] and [hex] are the lines
    written so far. *)
Fixpoint assemble_loop (g : globals) (pc : Z) (bin hex : list string)
    (lines : list string) : run :=
  match lines with
  | [] => Run bin hex None g pc
  | line :: rest =>
      match assemble_instruction g line pc with
      | (Raise e, g') => Run bin hex (Some e) g' pc
      | (Return None, g') => assemble_loop g' pc bin hex rest
      | (Return (Some binary_code), g') =>
          match binary_code with
          | EmptyString => assemble_loop g' pc bin hex rest
          | _ =>
              let bin' := bin ++ [binary_code] in
              match Py.int 2 binary_code with
              | None => Run bin' hex (Some (InvalidLiteral 2 binary_code)) g' pc
              | Some n =>
                  assemble_loop g' (pc + 4) bin' (hex ++ [Py.format_int 16 8 n]) rest
              end
          end
      end
  end.

(** [assemble_file]: [lines] is the content of the input file as
    [readlines] returns it; [g] is the module-level state at the call. *)
Definition assemble_file (g : globals) (lines : list string) : run :=
  assemble_loop (first_pass g lines) 0 [] [] lines.

(** ** Vocabulary of the properties *)

(** Every character of [s] satisfies [P]. *)
Fixpoint all_chars (P : ascii -> bool) (s : string) : bool :=
  match s with
  | EmptyString => true
  | String c r => P c && all_chars P r
  end.

(** The characters ['0'] and ['1']. *)
Definition is_bit (c : ascii) : bool :=
  Ascii.eqb c "0"%char || Ascii.eqb c "1"%char.

(** A bit-string: only the characters ['0'] and ['1']. *)
Definition bit_string (s : string) : bool := all_chars is_bit s.

(** A digit of the given base. *)
Definition is_digit_of (base : Z) (c : ascii) : bool :=
  match Py.digit_value c with
  | Some d => d <? base
  | None => false
  end.

(** An uppercase hexadecimal digit. *)
Definition is_upper_hex (c : ascii) : bool :=
  let n := Z.of_N (N_of_ascii c) in
  ((48 <=? n) && (n <=? 57)) || ((65 <=? n) && (n <=? 70)).

(** The number that a string of digits denotes, most significant first. *)
Fixpoint value (base : Z) (acc : Z) (s : string) : Z :=
  match s with
  | EmptyString => acc
  | String c r => value base (acc * base + default 0 (Py.digit_value c)) r
  end.


(** A character that is not white space. *)
Definition not_space (c : ascii) : bool := negb (Py.isspace c).

(** The mnemonic that [assemble_instruction] reads on a line, if any. *)
Definition mnemonic (line : string) : option string :=
  head (instruction_tokens line).

(** The line carries a [CMP] instruction. *)
Definition is_cmp (line : string) : bool :=
  match mnemonic line with
  | Some inst => String.eqb inst "CMP"
  | None => false
  end.

(** The run of the encoding loop over the first lines [pre] of a file
    [lines], after the first pass over the whole file. *)
Definition run_prefix (g : globals) (lines pre : list string) : run :=
  assemble_loop (first_pass g lines) 0 [] [] pre.

(** What the encoder does on [line] when the run over [lines] reaches it
    after the lines [pre]. *)
Definition outcome_after (g : globals) (lines pre : list string)
    (line : string) : outcome (option string) :=
  let r := run_prefix g lines pre in
  fst (assemble_instruction (final_globals r) line (final_pc r)).

(** The address a branch to [label] aims at: the recorded one or, for a
    label that is not in the table, zero. *)
Definition target_address (g : globals) (label : string) : Z :=
  match symbol_table g !! label with
  | Some a => a
  | None => 0
  end.

(** The character [ch] does not occur in [s]. *)
Definition no_char (ch : ascii) (s : string) : bool :=
  all_chars (fun c => negb (Ascii.eqb c ch)) s.

(** Only white space (or nothing at all). *)
Definition blank (s : string) : bool := all_chars Py.isspace s.

(** The text of a line that the first pass looks at. *)
Definition stripped (line : string) : string := Py.before "#" (Py.strip line).

(** The label that the first pass records on a line, if any. *)
Definition label_of (line : string) : option string :=
  match stripped line with
  | EmptyString => None
  | s =>
      match Py.after ":" s with
      | Some _ => Some (Py.strip (Py.before ":" s))
      | None => None
      end
  end.

(** The first pass counts the line as an instruction word: it is not empty
    and either has no label or has text after its label. *)
Definition takes_address (line : string) : bool :=
  match stripped line with
  | EmptyString => false
  | s =>
      match Py.after ":" s with
      | Some rest => match Py.strip rest with EmptyString => false | _ => true end
      | None => true
      end
  end.

(** The number of lines that the first pass counts as instruction words. *)
Definition count_addresses (lines : list string) : Z :=
  Z.of_nat (length (List.filter takes_address lines)).

(** The program counter of the first pass after the given lines. *)
Definition first_pass_pc (lines : list string) : Z :=
  snd (first_pass_loop ∅ 0 lines).

(** A line of the hex file next to the line of the binary file it was
    computed from: the binary line reads as a number in base 2, and the hex
    line is that number in uppercase hexadecimal, zero-padded to 8 digits. *)
Definition hex_of (b h : string) : Prop :=
  exists n, Py.int 2 b = Some n /\ h = Py.format_int 16 8 n.

(** The token names one of the registers R0..R15, in any letter case. *)
Definition named_register (tok : string) : bool :=
  match reg tok with
  | Some _ => true
  | None => false
  end.

(** The operands that the encoder looks up in [REGISTERS], by instruction
    class: all operands of an arithmetic, logic, memory, compare, [NOT] or
    [MOV] instruction except a last one in immediate form, and the first
    operand of [MOVU] and [MOVH]. *)
Definition register_operands (parts : list string) : list string :=
  match parts with
  | [] => []
  | inst :: ops =>
      if str_in inst ["ADD"; "SUB"; "MUL"; "DIV"; "LSL"; "LSR"; "ASR"; "AND";
                      "OR"; "MOD"; "LD"; "ST"] then
        match ops with
        | [p1; p2; p3] => if is_immediate p3 then [p1; p2] else [p1; p2; p3]
        | _ => []
        end
      else if String.eqb inst "CMP" then
        match ops with
        | [p1; p2] => if is_immediate p2 then [p1] else [p1; p2]
        | _ => []
        end
      else if str_in inst ["NOT"; "MOV"] then
        match ops with
        | [p1; p2] => if is_immediate p2 then [p1] else [p1; p2]
        | _ => []
        end
      else if str_in inst ["MOVU"; "MOVH"] then
        match ops with
        | [p1; _] => [p1]
        | _ => []
        end
      else []
  end.

(** Every register operand of the line names a register. *)
Definition registers_ok (line : string) : bool :=
  forallb named_register (register_operands (instruction_tokens line)).

(** The tokens of an instruction with its register operands in upper case:
    the first operand of [MOVU] and [MOVH] (the second is their immediate),
    no operand of a branch or call (theirs is a label), and every operand of
    the other instructions (upper case leaves an immediate as it is). *)
Definition upper_registers (parts : list string) : list string :=
  match parts with
  | [] => []
  | inst :: ops =>
      inst ::
      (if str_in inst ["MOVU"; "MOVH"] then
         match ops with
         | p1 :: rest => Py.upper p1 :: rest
         | [] => []
         end
       else if str_in inst ["BEQ"; "BGT"] then ops
       else if str_in inst ["B"; "CALL"] then ops
       else map Py.upper ops)
  end.

(** The encoder finds an instruction on the line (tokens other than a
    leading label). *)
Definition has_instruction (line : string) : bool :=
  match instruction_tokens line with
  | [] => false
  | _ => true
  end.

(** The scenario of the specification. *)
Definition scenario : list string :=
  ["start:"; "MOV R1 5"; "CMP R1 5"; "BEQ start"; "HLT"].

(** A character of an encoded word: a bit, or a letter of the text [None]. *)
Definition word_char (c : ascii) : bool :=
  is_bit c || Ascii.eqb c "N"%char || Ascii.eqb c "o"%char
  || Ascii.eqb c "n"%char || Ascii.eqb c "e"%char.

(** A line of the binary file that went on to the hex file: 32 bits. *)
Definition word32 (b : string) : Prop :=
  String.length b = 32%nat /\ bit_string b = true.

(** A line of the hex file: 8 uppercase hexadecimal digits. *)
Definition hex8 (h : string) : Prop :=
  String.length h = 8%nat /\ all_chars is_upper_hex h = true.

(** A field of an instruction word: [n] characters, all bits. *)
Definition bit_field (n : nat) (s : string) : Prop :=
  String.length s = n /\ bit_string s = true.

(** A character of a decimal immediate: a minus sign or a digit. *)
Definition imm_char (c : ascii) : bool :=
  Ascii.eqb c "-"%char || Py.isdigit_char c.

(** The immediate of the instruction, where it has one, is a literal that
    [int] accepts (the calls of [int] in [assemble_instruction]). *)
Definition literal_ok (parts : list string) : bool :=
  match parts with
  | [] => true
  | inst :: ops =>
      if str_in inst ["ADD"; "SUB"; "MUL"; "DIV"; "LSL"; "LSR"; "ASR"; "AND";
                      "OR"; "MOD"; "LD"; "ST"] then
        match ops with
        | [_; _; p3] =>
            if is_immediate p3
            then match Py.int 10 p3 with Some _ => true | None => false end
            else true
        | _ => true
        end
      else if String.eqb inst "CMP" then
        match ops with
        | [_; p2] =>
            if is_immediate p2
            then match Py.int 10 p2 with Some _ => true | None => false end
            else true
        | _ => true
        end
      else if str_in inst ["NOT"; "MOV"] then
        match ops with
        | [_; p2] =>
            if is_immediate p2
            then match Py.int 10 p2 with Some _ => true | None => false end
            else true
        | _ => true
        end
      else if str_in inst ["MOVU"; "MOVH"] then
        match ops with
        | [_; p2] =>
            match Py.int (if Py.startswith "0x" (Py.strip p2) then 16 else 10)
                    (Py.strip p2) with
            | Some _ => true
            | None => false
            end
        | _ => true
        end
      else true
  end.
(** ** Checks on concrete programs *)

Example split_ex : Py.split " ADD  R1 R2 5 " = ["ADD"; "R1"; "R2"; "5"].
Proof. reflexivity. Qed.

Example int_ex :
  (Py.int 10 "-12", Py.int 16 "0x1F", Py.int 10 "--5", Py.int 10 "1_000",
   Py.int 2 "0010") = (Some (-12), Some 31, None, Some 1000, Some 2).
Proof. reflexivity. Qed.

Example format_ex :
  (Py.format_int 2 18 5, Py.format_int 16 8 255, Py.format_int 16 8 (-5),
   Py.format_int 2 4 0) = ("000000000000000101", "000000FF", "-0000005", "0000").
Proof. reflexivity. Qed.

Example scenario_run :
  let r := assemble_file fresh scenario in
  bin_lines r = [ "01001100010000000000000000000101";
                  "00101100000001000000000000000101";
                  "10000111111111111111111111110100";
                  "11111000000000000000000000000000" ]
  /\ hex_lines r = ["4C400005"; "2C040005"; "87FFFFF4"; "F8000000"]
  /\ failure r = None
  /\ symbol_table (final_globals r) !! "start" = Some 0.
Proof. vm_compute. repeat split. Qed.

(** ** Strings: lengths and character classes *)

Local Arguments String.append : simpl nomatch.

Lemma length_app (s t : string) :
  String.length (s +:+ t) = (String.length s + String.length t)%nat.
Proof. induction s as [|c s IH]; simpl; [reflexivity | now rewrite IH]. Qed.

Lemma all_chars_app P (s t : string) :
  all_chars P (s +:+ t) = all_chars P s && all_chars P t.
Proof.
  induction s as [|c s IH]; simpl; [reflexivity|].
  now rewrite IH, andb_assoc.
Qed.

Lemma all_chars_impl (P Q : ascii -> bool) (s : string) :
  (forall c, P c = true -> Q c = true) ->
  all_chars P s = true -> all_chars Q s = true.
Proof.
  intros HPQ. induction s as [|c s IH]; simpl; [reflexivity|].
  rewrite !andb_true_iff. intros [Hc Hs]. split; auto.
Qed.

Lemma value_app base acc (s t : string) :
  value base acc (s +:+ t) = value base (value base acc s) t.
Proof. revert acc. induction s as [|c s IH]; intros acc; simpl; auto. Qed.

(** A case analysis on the 256 characters, by computation. *)
Ltac by_cases_on_char c :=
  destruct c as [[] [] [] [] [] [] [] []]; vm_compute; try discriminate; auto.

Lemma is_bit_digit (c : ascii) : is_bit c = true -> is_digit_of 2 c = true.
Proof. by_cases_on_char c. Qed.

Lemma digit_of_2_is_bit (c : ascii) : is_digit_of 2 c = true -> is_bit c = true.
Proof. by_cases_on_char c. Qed.

Lemma upper_hex_digit (c : ascii) : is_upper_hex c = true -> is_digit_of 16 c = true.
Proof. by_cases_on_char c. Qed.

Lemma digit_not_space base (c : ascii) :
  is_digit_of base c = true -> Py.isspace c = false.
Proof.
  unfold is_digit_of. destruct (Py.digit_value c) eqn:E; [intros _|discriminate].
  revert E. by_cases_on_char c.
Qed.

Lemma digit_not_mark base (c : ascii) :
  is_digit_of base c = true ->
  Ascii.eqb c "_"%char = false /\ Ascii.eqb c "-"%char = false
  /\ Ascii.eqb c "+"%char = false.
Proof.
  unfold is_digit_of. destruct (Py.digit_value c) eqn:E; [intros _|discriminate].
  revert E. by_cases_on_char c.
Qed.

Lemma digit_not_prefix_letter (c : ascii) :
  (is_digit_of 16 c = true ->
     Ascii.eqb c "x"%char = false /\ Ascii.eqb c "X"%char = false)
  /\ (is_digit_of 2 c = true ->
     Ascii.eqb c "b"%char = false /\ Ascii.eqb c "B"%char = false).
Proof. split; by_cases_on_char c. Qed.

Lemma digit_value_digit_char (d : Z) :
  0 <= d < 16 -> Py.digit_value (Py.digit_char d) = Some d.
Proof.
  intros H.
  assert (E : d = 0 \/ d = 1 \/ d = 2 \/ d = 3 \/ d = 4 \/ d = 5 \/ d = 6
              \/ d = 7 \/ d = 8 \/ d = 9 \/ d = 10 \/ d = 11 \/ d = 12
              \/ d = 13 \/ d = 14 \/ d = 15) by lia.
  repeat (destruct E as [-> | E]; [reflexivity|]). subst d. reflexivity.
Qed.

Lemma digit_char_upper_hex (d : Z) :
  0 <= d < 16 -> is_upper_hex (Py.digit_char d) = true.
Proof.
  intros H.
  assert (E : d = 0 \/ d = 1 \/ d = 2 \/ d = 3 \/ d = 4 \/ d = 5 \/ d = 6
              \/ d = 7 \/ d = 8 \/ d = 9 \/ d = 10 \/ d = 11 \/ d = 12
              \/ d = 13 \/ d = 14 \/ d = 15) by lia.
  repeat (destruct E as [-> | E]; [reflexivity|]). subst d. reflexivity.
Qed.

Lemma digit_char_bit (d : Z) : 0 <= d < 2 -> is_bit (Py.digit_char d) = true.
Proof.
  intros H. assert (E : d = 0 \/ d = 1) by lia.
  destruct E as [-> | ->]; reflexivity.
Qed.

(** ** Numerals: [format] produces what [int] reads back *)

Section Numerals.

Variable base : Z.
Hypothesis base_range : 2 <= base <= 16.

Lemma to_base_fuel_chars (P : ascii -> bool) (fuel : nat) (n : Z) :
  (forall d, 0 <= d < base -> P (Py.digit_char d) = true) ->
  all_chars P (Py.to_base_fuel base fuel n) = true.
Proof.
  intros HP. revert n. induction fuel as [|f IH]; intros n; simpl; [reflexivity|].
  rewrite all_chars_app. simpl.
  rewrite HP by (apply Z.mod_pos_bound; lia).
  destruct (n / base =? 0); simpl; [reflexivity|].
  now rewrite IH.
Qed.

Lemma to_base_fuel_value (fuel : nat) (n : Z) :
  0 <= n < 2 ^ Z.of_nat fuel ->
  value base 0 (Py.to_base_fuel base fuel n) = n.
Proof.
  revert n. induction fuel as [|f IH]; intros n Hn.
  - simpl in *. lia.
  - simpl Py.to_base_fuel. rewrite value_app. simpl.
    assert (Hm : 0 <= n mod base < base) by (apply Z.mod_pos_bound; lia).
    rewrite digit_value_digit_char by lia. simpl.
    pose proof (Z.div_mod n base ltac:(lia)) as Hdm.
    destruct (n / base =? 0) eqn:E.
    + apply Z.eqb_eq in E. simpl. lia.
    + rewrite IH; [lia|].
      rewrite Nat2Z.inj_succ, Z.pow_succ_r in Hn by lia.
      split; [apply Z.div_pos; lia|].
      apply Z.div_lt_upper_bound; [lia|].
      assert (0 < 2 ^ Z.of_nat f) by (apply Z.pow_pos_nonneg; lia). nia.
Qed.

Lemma to_base_fuel_length (fuel k : nat) (n : Z) :
  (1 <= k)%nat -> 0 <= n < base ^ Z.of_nat k ->
  (String.length (Py.to_base_fuel base fuel n) <= k)%nat.
Proof.
  revert n k. induction fuel as [|f IH]; intros n k Hk Hn; simpl; [lia|].
  rewrite length_app. simpl.
  destruct (n / base =? 0) eqn:E; simpl; [lia|].
  apply Z.eqb_neq in E.
  destruct k as [|[|k]]; [lia| |].
  - exfalso. apply E. apply Z.div_small. simpl in Hn. lia.
  - assert (H : (String.length (Py.to_base_fuel base f (n / base)) <= S k)%nat).
    { apply IH; [lia|].
      rewrite (Nat2Z.inj_succ (S k)), Z.pow_succ_r in Hn by lia.
      split; [apply Z.div_pos; lia|].
      apply Z.div_lt_upper_bound; lia. }
    lia.
Qed.

Lemma to_base_fuel_nonempty (fuel : nat) (n : Z) :
  Py.to_base_fuel base (S fuel) n <> EmptyString.
Proof.
  simpl. destruct (if n / base =? 0 then _ else _); simpl; discriminate.
Qed.

Lemma to_base_value (n : Z) : 0 <= n -> value base 0 (Py.to_base base n) = n.
Proof.
  intros Hn. unfold Py.to_base. apply to_base_fuel_value.
  split; [lia|].
  destruct (Z.eq_dec n 0) as [->|Hne]; [reflexivity|].
  rewrite Nat2Z.inj_succ, Z2Nat.id by apply Z.log2_nonneg.
  apply Z.log2_spec. lia.
Qed.

Lemma zeros_length (k : nat) : String.length (Py.zeros k) = k.
Proof. induction k; simpl; auto. Qed.

Lemma zeros_chars (P : ascii -> bool) (k : nat) :
  P "0"%char = true -> all_chars P (Py.zeros k) = true.
Proof. intros HP. induction k; simpl; [reflexivity|]. now rewrite HP. Qed.

Lemma zeros_value (k : nat) : value base 0 (Py.zeros k) = 0.
Proof. induction k; simpl; auto. Qed.

Lemma zfill_length (w : nat) (s : string) :
  (String.length s <= w)%nat -> String.length (Py.zfill w s) = w.
Proof. intros H. unfold Py.zfill. rewrite length_app, zeros_length. lia. Qed.

Lemma zfill_value (w : nat) (s : string) :
  value base 0 (Py.zfill w s) = value base 0 s.
Proof. unfold Py.zfill. now rewrite value_app, zeros_value. Qed.

Lemma zfill_chars (P : ascii -> bool) (w : nat) (s : string) :
  P "0"%char = true -> all_chars P s = true -> all_chars P (Py.zfill w s) = true.
Proof.
  intros H0 Hs. unfold Py.zfill. now rewrite all_chars_app, zeros_chars, Hs.
Qed.

Lemma zfill_nonempty (w : nat) (s : string) :
  s <> EmptyString -> Py.zfill w s <> EmptyString.
Proof.
  unfold Py.zfill. destruct (Py.zeros _); simpl; [auto | discriminate].
Qed.

(** [format(n, '0<w>b')] and [format(n, '0<w>X')] of a number that fits in
    [w] digits: exactly [w] characters, all of them digits of the base. *)
Lemma format_int_length (w : nat) (n : Z) :
  (1 <= w)%nat -> 0 <= n < base ^ Z.of_nat w ->
  String.length (Py.format_int base w n) = w.
Proof.
  intros Hw Hn. unfold Py.format_int.
  destruct (n <? 0) eqn:E; [apply Z.ltb_lt in E; lia|].
  apply zfill_length. now apply to_base_fuel_length.
Qed.

Lemma format_int_chars (P : ascii -> bool) (w : nat) (n : Z) :
  0 <= n -> P "0"%char = true ->
  (forall d, 0 <= d < base -> P (Py.digit_char d) = true) ->
  all_chars P (Py.format_int base w n) = true.
Proof.
  intros Hn H0 HP. unfold Py.format_int.
  destruct (n <? 0) eqn:E; [apply Z.ltb_lt in E; lia|].
  apply zfill_chars; [assumption|]. now apply to_base_fuel_chars.
Qed.

End Numerals.

(** *** Reading a plain digit string *)

Lemma lstrip_no_space (s : string) : all_chars not_space s = true -> Py.lstrip s = s.
Proof.
  destruct s as [|c r]; simpl; [reflexivity|].
  unfold not_space at 1. destruct (Py.isspace c); simpl; [discriminate | reflexivity].
Qed.

Lemma rstrip_no_space (s : string) : all_chars not_space s = true -> Py.rstrip s = s.
Proof.
  induction s as [|c r IH]; simpl; [reflexivity|].
  rewrite andb_true_iff. intros [Hc Hr]. rewrite (IH Hr).
  unfold not_space in Hc. destruct r; [|reflexivity].
  destruct (Py.isspace c); [discriminate | reflexivity].
Qed.

Lemma strip_no_space (s : string) : all_chars not_space s = true -> Py.strip s = s.
Proof.
  intros H. unfold Py.strip. rewrite (lstrip_no_space s H). now apply rstrip_no_space.
Qed.

Lemma isspace_int_isspace (c : ascii) :
  Py.isspace_int c = true -> Py.isspace c = true.
Proof. by_cases_on_char c. Qed.

(** [int] finds nothing to skip around a string without white space. *)
Lemma int_strip_no_space (s : string) :
  all_chars not_space s = true -> Py.int_rstrip (Py.int_lstrip s) = s.
Proof.
  intros H.
  assert (Hl : Py.int_lstrip s = s).
  { destruct s as [|c r]; [reflexivity|]. simpl in *.
    apply andb_true_iff in H as [Hc _]. unfold not_space in Hc.
    destruct (Py.isspace_int c) eqn:E; [|reflexivity].
    apply isspace_int_isspace in E. now rewrite E in Hc. }
  rewrite Hl. clear Hl. induction s as [|c r IH]; [reflexivity|].
  simpl in *. apply andb_true_iff in H as [Hc Hr]. rewrite (IH Hr).
  destruct r; [|reflexivity]. unfold not_space in Hc.
  destruct (Py.isspace_int c) eqn:E; [|reflexivity].
  apply isspace_int_isspace in E. now rewrite E in Hc.
Qed.

Lemma digits_no_space base (s : string) :
  all_chars (is_digit_of base) s = true -> all_chars not_space s = true.
Proof.
  apply all_chars_impl. intros c Hc. unfold not_space.
  now rewrite (digit_not_space base c Hc).
Qed.

Lemma scan_digits_plain base (s : string) (acc : Z) (n : nat) :
  all_chars (is_digit_of base) s = true ->
  Py.scan_digits base false acc n s
  = Some (value base acc s, (n + String.length s)%nat).
Proof.
  revert acc n. induction s as [|c r IH]; intros acc n; simpl.
  - intros _. do 2 f_equal. lia.
  - rewrite andb_true_iff. intros [Hc Hr].
    destruct (digit_not_mark base c Hc) as (-> & _ & _).
    unfold is_digit_of in Hc. destruct (Py.digit_value c) as [d|]; [|discriminate].
    rewrite Hc. simpl. rewrite (IH _ _ Hr). do 2 f_equal. lia.
Qed.

Lemma take_prefix_plain base (s : string) :
  base = 2 \/ base = 16 ->
  all_chars (is_digit_of base) s = true -> Py.take_prefix base s = s.
Proof.
  intros Hb. destruct s as [|z [|p r]]; simpl; try reflexivity.
  rewrite !andb_true_iff. intros (_ & Hp & _).
  destruct (digit_not_prefix_letter p) as [H16 H2].
  destruct Hb as [-> | ->].
  - destruct (H2 Hp) as [-> ->]. simpl. now rewrite andb_false_r.
  - destruct (H16 Hp) as [-> ->]. simpl. now rewrite andb_false_r.
Qed.

(** [int(s, 2)] and [int(s, 16)] on a non-empty string of digits of the base. *)
Lemma int_plain base (s : string) :
  base = 2 \/ base = 16 -> s <> EmptyString ->
  all_chars (is_digit_of base) s = true ->
  Py.int base s = Some (value base 0 s).
Proof.
  intros Hb Hne Hs. unfold Py.int.
  rewrite (int_strip_no_space s (digits_no_space base s Hs)).
  destruct s as [|c r]; [congruence|].
  assert (Hc : is_digit_of base c = true).
  { simpl in Hs. now apply andb_true_iff in Hs as [? _]. }
  destruct (digit_not_mark base c Hc) as (Hu & Hm & Hp).
  unfold Py.take_sign. rewrite Hm, Hp.
  rewrite (take_prefix_plain base _ Hb Hs). rewrite Hu.
  rewrite (scan_digits_plain base _ 0 0 Hs).
  replace (negb (Py.is_power_of_two_base base)) with false
    by (destruct Hb as [-> | ->]; reflexivity).
  reflexivity.
Qed.

(** The same with a minus sign in front. *)
Lemma int_minus base (s : string) :
  base = 2 \/ base = 16 -> s <> EmptyString ->
  all_chars (is_digit_of base) s = true ->
  Py.int base (String "-"%char s) = Some (- value base 0 s).
Proof.
  intros Hb Hne Hs. unfold Py.int.
  rewrite (int_strip_no_space (String "-"%char s)).
  2:{ simpl. now rewrite (digits_no_space base s Hs). }
  simpl Py.take_sign. cbv iota.
  destruct s as [|c r]; [congruence|].
  assert (Hc : is_digit_of base c = true).
  { simpl in Hs. now apply andb_true_iff in Hs as [? _]. }
  destruct (digit_not_mark base c Hc) as (Hu & Hm & Hp).
  rewrite (take_prefix_plain base _ Hb Hs). rewrite Hu.
  rewrite (scan_digits_plain base _ 0 0 Hs).
  replace (negb (Py.is_power_of_two_base base)) with false
    by (destruct Hb as [-> | ->]; reflexivity).
  reflexivity.
Qed.

Lemma digit_char_is_digit base (d : Z) :
  2 <= base <= 16 -> 0 <= d < base -> is_digit_of base (Py.digit_char d) = true.
Proof.
  intros Hb Hd. unfold is_digit_of. rewrite digit_value_digit_char by lia.
  apply Z.ltb_lt. lia.
Qed.

Lemma to_base_digits base (n : Z) :
  2 <= base <= 16 -> all_chars (is_digit_of base) (Py.to_base base n) = true.
Proof.
  intros Hb. unfold Py.to_base. apply to_base_fuel_chars; [lia|].
  intros d Hd. now apply digit_char_is_digit.
Qed.

(** Round trip: [int(format(n, '0<w>b'), 2) = n] and
    [int(format(n, '0<w>X'), 16) = n], for every integer [n]. *)
Lemma int_format_int base (w : nat) (n : Z) :
  base = 2 \/ base = 16 -> Py.int base (Py.format_int base w n) = Some n.
Proof.
  intros Hb. assert (Hr : 2 <= base <= 16) by lia.
  assert (H0 : is_digit_of base "0"%char = true)
    by (destruct Hb as [-> | ->]; reflexivity).
  unfold Py.format_int. destruct (n <? 0) eqn:E.
  - apply Z.ltb_lt in E. rewrite int_minus; auto.
    + rewrite zfill_value, to_base_value by lia. f_equal. lia.
    + apply zfill_nonempty. apply to_base_fuel_nonempty.
    + apply zfill_chars; [assumption | now apply to_base_digits].
  - apply Z.ltb_ge in E. rewrite int_plain; auto.
    + now rewrite zfill_value, to_base_value by lia.
    + apply zfill_nonempty. apply to_base_fuel_nonempty.
    + apply zfill_chars; [assumption | now apply to_base_digits].
Qed.

(** ** The encoder and the comparison state *)

(** Case analysis on the scrutinee of the first [match] or [if] of a term. *)
Ltac break_in t :=
  match t with
  | context [match ?x with _ => _ end] => break_in x
  | context [if ?x then _ else _] => break_in x
  | _ => destruct t eqn:?
  end.

Ltac break_hyp H :=
  match type of H with
  | context [match ?x with _ => _ end] => break_in x
  end.

(** The only call that changes the module-level state is a [CMP] with two
    operands that returns a word; it sets [last_cmp]. *)
Lemma encode_globals g line pc parts o g' :
  encode g line pc parts = (o, g') ->
  g' = g
  \/ exists p1 p2 d w,
       parts = ["CMP"; p1; p2] /\ o = Return (Some w)
       /\ g' = {| symbol_table := symbol_table g; last_cmp := Some (reg p1, d) |}.
Proof.
  unfold encode, imm18. intros H.
  repeat (break_hyp H; try (injection H as <- <-; auto; fail)).
  all: injection H as <- <-; right;
    match goal with E : String.eqb _ "CMP" = true |- _ => apply String.eqb_eq in E; subst end;
    eauto 10.
Qed.

Lemma encode_cmp_sets g line pc ops r g' :
  encode g line pc ("CMP" :: ops) = (Return r, g') -> is_Some (last_cmp g').
Proof.
  unfold encode, imm18. simpl. intros H.
  repeat (break_hyp H; try discriminate).
  all: injection H as <- <-; simpl; eauto.
Qed.

(** One call of the encoder never clears the comparison state, and leaves
    the symbol table as it is. *)
Lemma assemble_instruction_keeps g line pc :
  symbol_table (snd (assemble_instruction g line pc)) = symbol_table g
  /\ (is_Some (last_cmp g) ->
      is_Some (last_cmp (snd (assemble_instruction g line pc)))).
Proof.
  unfold assemble_instruction.
  destruct (encode g line pc (instruction_tokens line)) as [o g'] eqn:E.
  destruct (encode_globals _ _ _ _ _ _ E) as [-> | (p1 & p2 & d & w & _ & _ & ->)];
    simpl; eauto.
Qed.

(** After a call that returns, the comparison state is set exactly when it
    was set before or the line carries a [CMP]. *)
Lemma assemble_instruction_last_cmp g line pc r g' :
  assemble_instruction g line pc = (Return r, g') ->
  (is_Some (last_cmp g') <-> is_Some (last_cmp g) \/ is_cmp line = true).
Proof.
  unfold assemble_instruction, is_cmp, mnemonic. intros E.
  destruct (encode_globals _ _ _ _ _ _ E) as [-> | (p1 & p2 & d & w & Hp & _ & ->)].
  - split; [auto|]. intros [H | H]; [assumption|].
    destruct (instruction_tokens line) as [|inst ops]; [discriminate|].
    simpl in H. apply String.eqb_eq in H. subst inst.
    now apply encode_cmp_sets in E.
  - rewrite Hp. simpl. split; eauto.
Qed.

(** The loop over [pre ++ post] is the loop over [pre], continued over
    [post] unless it has stopped. *)
Lemma assemble_loop_app g pc bin hex pre post :
  assemble_loop g pc bin hex (pre ++ post)
  = let r := assemble_loop g pc bin hex pre in
    match failure r with
    | Some _ => r
    | None => assemble_loop (final_globals r) (final_pc r) (bin_lines r)
                (hex_lines r) post
    end.
Proof.
  revert g pc bin hex. induction pre as [|l pre IH]; intros g pc bin hex;
    [reflexivity|].
  simpl app. simpl assemble_loop.
  destruct (assemble_instruction g l pc) as [[[w|]|e] g']; try apply IH;
    [|reflexivity].
  destruct w; [apply IH|]. destruct (Py.int 2 _); [apply IH | reflexivity].
Qed.

Lemma assemble_loop_keeps g pc bin hex lines :
  is_Some (last_cmp g) ->
  is_Some (last_cmp (final_globals (assemble_loop g pc bin hex lines))).
Proof.
  revert g pc bin hex. induction lines as [|l lines IH]; intros g pc bin hex Hg;
    [assumption|].
  simpl. pose proof (proj2 (assemble_instruction_keeps g l pc) Hg) as Hk.
  destruct (assemble_instruction g l pc) as [[[w|]|e] g']; simpl in Hk; auto.
  destruct w; auto. destruct (Py.int 2 _); auto.
Qed.

Lemma assemble_loop_last_cmp g pc bin hex lines :
  failure (assemble_loop g pc bin hex lines) = None ->
  (is_Some (last_cmp (final_globals (assemble_loop g pc bin hex lines)))
   <-> is_Some (last_cmp g) \/ existsb is_cmp lines = true).
Proof.
  revert g pc bin hex. induction lines as [|l lines IH]; intros g pc bin hex.
  - simpl. intros _. split; [auto | intros [H | H]; [assumption | discriminate]].
  - simpl. destruct (assemble_instruction g l pc) as [[r|e] g'] eqn:E;
      [|discriminate].
    pose proof (assemble_instruction_last_cmp _ _ _ _ _ E) as Hs.
    rewrite orb_true_iff.
    assert (K : forall pc' bin' hex',
      failure (assemble_loop g' pc' bin' hex' lines) = None ->
      is_Some (last_cmp (final_globals (assemble_loop g' pc' bin' hex' lines)))
      <-> is_Some (last_cmp g) \/ is_cmp l = true \/ existsb is_cmp lines = true).
    { intros pc' bin' hex' Hf. rewrite (IH _ _ _ _ Hf), Hs. tauto. }
    destruct r as [w|]; [|apply K]. destruct w; [apply K|].
    destruct (Py.int 2 _); [apply K | discriminate].
Qed.




(** C8. The comparison state is never cleared.  The first pass leaves it as
    it is, and in the encoding loop, once it is set after some lines of the
    run (in particular once the run has got through a line that carries a
    [CMP]), it is still set after any further lines. *)
Theorem comparison_state_never_cleared g lines pre further :
  is_Some (last_cmp (final_globals (run_prefix g lines pre)))
  \/ (failure (run_prefix g lines pre) = None /\ existsb is_cmp pre = true) ->
  is_Some (last_cmp (final_globals (run_prefix g lines (pre ++ further))))
  /\ last_cmp (first_pass g lines) = last_cmp g.
Proof.
  intros H. split; [|reflexivity].
  assert (Hpre : is_Some (last_cmp (final_globals (run_prefix g lines pre)))).
  { destruct H as [H | [Hf Hc]]; [assumption|].
    unfold run_prefix in *. apply (assemble_loop_last_cmp _ _ _ _ _ Hf). auto. }
  unfold run_prefix in *. rewrite assemble_loop_app. cbv zeta.
  destruct (failure _); [assumption|]. now apply assemble_loop_keeps.
Qed.

Lemma comparison_state_never_cleared_witness :
  is_Some (last_cmp (final_globals
     (run_prefix fresh scenario (["start:"; "MOV R1 5"; "CMP R1 5"] ++ ["BEQ start"; "HLT"]))))
  /\ last_cmp (first_pass fresh scenario) = last_cmp fresh.
Proof.
  apply (comparison_state_never_cleared fresh scenario
           ["start:"; "MOV R1 5"; "CMP R1 5"] ["BEQ start"; "HLT"]).
  right. split; vm_compute; reflexivity.
Defined.

(** ** Branches and calls *)

Lemma land_mask_27 (x : Z) :
  Z.land x 134217727 = x mod 2 ^ 27 /\ 0 <= Z.land x 134217727 < 2 ^ 27.
Proof.
  change 134217727 with (Z.ones 27). rewrite Z.land_ones by lia.
  split; [reflexivity|]. apply Z.mod_pos_bound. lia.
Qed.

(** The 27-bit field of a branch word. *)
Lemma branch_field (x : Z) :
  let field := Py.format_int 2 27 (Z.land x 134217727) in
  String.length field = 27%nat /\ bit_string field = true
  /\ Py.int 2 field = Some (x mod 2 ^ 27).
Proof.
  cbv zeta. destruct (land_mask_27 x) as [Heq Hr]. split; [|split].
  - apply format_int_length; [lia | lia | exact Hr].
  - apply format_int_chars; [lia | lia | reflexivity |].
    intros d Hd. now apply digit_char_bit.
  - rewrite int_format_int by auto. now rewrite Heq.
Qed.

(** C2. A [BEQ], [BGT], [B] or [CALL] with one label operand, encoded at
    [pc] (for the conditional ones, with the comparison state set), returns
    the 5-bit opcode followed directly by a 27-character bit-string that
    reads as [(target - (pc + 4)) & 0x7FFFFFF], which is the offset modulo
    2^27; the target of a label that is not in the symbol table is 0, and
    no error is raised for it. *)
Theorem branch_offset_encoding g line pc inst label :
  instruction_tokens line = [inst; label] ->
  In inst ["BEQ"; "BGT"; "B"; "CALL"] ->
  (inst = "BEQ" \/ inst = "BGT" -> is_Some (last_cmp g)) ->
  exists opcode field,
    dict_get OPCODES inst = Some opcode
    /\ String.length opcode = 5%nat
    /\ assemble_instruction g line pc = (Return (Some (opcode +:+ field)), g)
    /\ String.length field = 27%nat
    /\ bit_string field = true
    /\ Py.int 2 field = Some (Z.land (target_address g label - (pc + 4)) 134217727)
    /\ Z.land (target_address g label - (pc + 4)) 134217727
       = (target_address g label - (pc + 4)) mod 2 ^ 27
    /\ (symbol_table g !! label = None -> target_address g label = 0).
Proof.
  intros Ht Hin Hcmp.
  pose proof (branch_field (target_address g label - (pc + 4))) as (Hlen & Hbits & Hint).
  destruct (land_mask_27 (target_address g label - (pc + 4))) as [Hmask _].
  assert (Hnone : symbol_table g !! label = None -> target_address g label = 0).
  { unfold target_address. now intros ->. }
  assert (Hw : forall opcode,
    branch_word g opcode label pc
    = opcode +:+ Py.format_int 2 27
        (Z.land (target_address g label - (pc + 4)) 134217727)).
  { intros opcode. unfold branch_word, target_address.
    destruct (symbol_table g !! label); reflexivity. }
  unfold assemble_instruction. rewrite Ht.
  simpl in Hin. destruct Hin as [<- | [<- | [<- | [<- | []]]]].
  1, 2: destruct Hcmp as [v Hv]; [auto|].
  all: eexists _, (Py.format_int 2 27
         (Z.land (target_address g label - (pc + 4)) 134217727)).
  all: split; [reflexivity|]; split; [reflexivity|].
  all: split; [unfold encode; simpl; rewrite ?Hv, Hw; reflexivity|].
  all: repeat split; auto; congruence.
Qed.

Lemma branch_offset_encoding_witness :
  exists opcode field,
    dict_get OPCODES "B" = Some opcode
    /\ String.length opcode = 5%nat
    /\ assemble_instruction fresh "loop: B nowhere" 8
       = (Return (Some (opcode +:+ field)), fresh)
    /\ String.length field = 27%nat
    /\ bit_string field = true
    /\ Py.int 2 field = Some (Z.land (target_address fresh "nowhere" - (8 + 4)) 134217727)
    /\ Z.land (target_address fresh "nowhere" - (8 + 4)) 134217727
       = (target_address fresh "nowhere" - (8 + 4)) mod 2 ^ 27
    /\ (symbol_table fresh !! "nowhere" = None -> target_address fresh "nowhere" = 0).
Proof.
  apply (branch_offset_encoding fresh "loop: B nowhere" 8 "B" "nowhere").
  - reflexivity.
  - simpl. auto.
  - intros [H | H]; discriminate H.
Defined.

(** ** The first pass *)

Lemma first_pass_line_spec tbl pc line :
  first_pass_line (tbl, pc) line
  = (match label_of line with
     | Some l => <[l := Z.land pc (Z.lnot 3)]> tbl
     | None => tbl
     end,
     if takes_address line then pc + 4 else pc).
Proof.
  unfold first_pass_line, label_of, takes_address, stripped.
  destruct (Py.before "#" (Py.strip line)) as [|c s] eqn:E; [reflexivity|].
  destruct (Py.after ":" (String c s)) as [rest|]; [|reflexivity].
  destruct (Py.strip rest); reflexivity.
Qed.

Lemma first_pass_loop_cons tbl pc line lines :
  first_pass_loop tbl pc (line :: lines)
  = first_pass_loop
      (match label_of line with
       | Some l => <[l := Z.land pc (Z.lnot 3)]> tbl
       | None => tbl
       end)
      (if takes_address line then pc + 4 else pc) lines.
Proof.
  unfold first_pass_loop.
  change (fold_left first_pass_line (line :: lines) (tbl, pc))
    with (fold_left first_pass_line lines (first_pass_line (tbl, pc) line)).
  now rewrite first_pass_line_spec.
Qed.

Lemma first_pass_loop_app tbl pc l1 l2 :
  first_pass_loop tbl pc (l1 ++ l2)
  = first_pass_loop (fst (first_pass_loop tbl pc l1))
      (snd (first_pass_loop tbl pc l1)) l2.
Proof.
  unfold first_pass_loop. rewrite fold_left_app.
  now destruct (fold_left first_pass_line l1 (tbl, pc)).
Qed.

Lemma count_addresses_cons l lines :
  count_addresses (l :: lines)
  = (if takes_address l then 1 else 0) + count_addresses lines.
Proof.
  unfold count_addresses. simpl List.filter.
  destruct (takes_address l); [simpl length|]; lia.
Qed.

Lemma count_addresses_app l1 l2 :
  count_addresses (l1 ++ l2) = count_addresses l1 + count_addresses l2.
Proof.
  induction l1 as [|l l1 IH]; [reflexivity|].
  simpl app. rewrite !count_addresses_cons, IH. lia.
Qed.

Lemma count_addresses_nonneg lines : 0 <= count_addresses lines.
Proof. unfold count_addresses. lia. Qed.

(** The program counter of the first pass does not depend on the table, and
    is four times the number of lines counted so far. *)
Lemma first_pass_loop_pc tbl pc lines :
  snd (first_pass_loop tbl pc lines) = pc + 4 * count_addresses lines.
Proof.
  revert tbl pc. induction lines as [|l lines IH]; intros tbl pc.
  - simpl. unfold count_addresses. simpl. lia.
  - rewrite first_pass_loop_cons, IH, count_addresses_cons.
    destruct (takes_address l); lia.
Qed.

(** Forcing an address that is a multiple of four to its aligned floor
    changes nothing. *)
Lemma align_multiple_of_4 (k : Z) : Z.land (4 * k) (Z.lnot 3) = 4 * k.
Proof.
  apply Z.bits_inj'. intros i Hi.
  rewrite Z.land_spec, Z.lnot_spec by lia.
  destruct (Z.testbit (4 * k) i) eqn:E; [|reflexivity].
  simpl. apply negb_true_iff.
  change 3 with (Z.ones 2).
  destruct (Z_lt_dec i 2) as [Hlt|Hge].
  - exfalso. change 4 with (2 ^ 2) in E. rewrite Z.mul_comm in E.
    rewrite Z.mul_pow2_bits_low in E by lia. discriminate.
  - apply Z.ones_spec_high. lia.
Qed.

(** Lines that define no label [l] leave its entry alone. *)
Lemma first_pass_loop_other tbl pc lines (l : string) :
  Forall (fun line => label_of line <> Some l) lines ->
  fst (first_pass_loop tbl pc lines) !! l = tbl !! l.
Proof.
  intros H. revert tbl pc. induction H as [|line lines Hl _ IH]; intros tbl pc;
    [reflexivity|].
  rewrite first_pass_loop_cons, IH.
  destruct (label_of line) as [l'|]; [|reflexivity].
  apply lookup_insert_ne. congruence.
Qed.

(** The entry of a label after the pass: the counter at its last definition. *)
Lemma first_pass_loop_label tbl pre line post (l : string) :
  label_of line = Some l ->
  Forall (fun line' => label_of line' <> Some l) post ->
  fst (first_pass_loop tbl 0 (pre ++ line :: post)) !! l
  = Some (4 * count_addresses pre).
Proof.
  intros Hl Hpost.
  rewrite first_pass_loop_app.
  change (line :: post) with ([line] ++ post). rewrite first_pass_loop_app.
  rewrite first_pass_loop_other by assumption.
  rewrite first_pass_loop_pc. rewrite Z.add_0_l.
  rewrite first_pass_loop_cons, Hl. simpl fst.
  rewrite lookup_insert_eq. now rewrite align_multiple_of_4.
Qed.

(** *** The shape of a label line *)

Lemma lstrip_app (x : string) (c : ascii) (y : string) :
  Py.isspace c = false ->
  Py.lstrip (x +:+ String c y) = Py.lstrip x +:+ String c y.
Proof.
  intros Hc. induction x as [|a x IH]; simpl.
  - now rewrite Hc.
  - destruct (Py.isspace a); [assumption | reflexivity].
Qed.

Lemma rstrip_cons (c : ascii) (y : string) :
  Py.isspace c = false -> Py.rstrip (String c y) = String c (Py.rstrip y).
Proof. intros Hc. simpl. destruct (Py.rstrip y); [now rewrite Hc | reflexivity]. Qed.

Lemma rstrip_app (x : string) (c : ascii) (y : string) :
  Py.isspace c = false ->
  Py.rstrip (x +:+ String c y) = x +:+ String c (Py.rstrip y).
Proof.
  intros Hc. induction x as [|a x IH].
  - now apply rstrip_cons.
  - change (String a x +:+ String c y) with (String a (x +:+ String c y)).
    simpl Py.rstrip. rewrite IH.
    destruct x; reflexivity.
Qed.

Lemma lstrip_idem (s : string) : Py.lstrip (Py.lstrip s) = Py.lstrip s.
Proof.
  induction s as [|c s IH]; simpl; [reflexivity|].
  destruct (Py.isspace c) eqn:E; [assumption|]. simpl. now rewrite E.
Qed.

Lemma lstrip_no_char ch (s : string) :
  no_char ch s = true -> no_char ch (Py.lstrip s) = true.
Proof.
  unfold no_char. induction s as [|c s IH]; simpl; [reflexivity|].
  rewrite andb_true_iff. intros [Hc Hs].
  destruct (Py.isspace c); [auto|]. simpl. now rewrite Hc, Hs.
Qed.

Lemma before_app_other sep (x : string) (c : ascii) (y : string) :
  no_char sep x = true -> Ascii.eqb c sep = false ->
  Py.before sep (x +:+ String c y) = x +:+ String c (Py.before sep y).
Proof.
  unfold no_char. intros Hx Hc. induction x as [|a x IH]; simpl in *.
  - now rewrite Hc.
  - apply andb_true_iff in Hx as [Ha Hx]. apply negb_true_iff in Ha.
    rewrite Ha. now rewrite IH.
Qed.

Lemma before_app_sep sep (x y : string) :
  no_char sep x = true -> Py.before sep (x +:+ String sep y) = x.
Proof.
  unfold no_char. intros Hx. induction x as [|a x IH]; simpl in *.
  - now rewrite Ascii.eqb_refl.
  - apply andb_true_iff in Hx as [Ha Hx]. apply negb_true_iff in Ha.
    rewrite Ha. now rewrite IH.
Qed.

Lemma after_app_sep sep (x y : string) :
  no_char sep x = true -> Py.after sep (x +:+ String sep y) = Some y.
Proof.
  unfold no_char. intros Hx. induction x as [|a x IH]; simpl in *.
  - now rewrite Ascii.eqb_refl.
  - apply andb_true_iff in Hx as [Ha Hx]. apply negb_true_iff in Ha.
    rewrite Ha. now apply IH.
Qed.

Lemma lstrip_empty (s : string) : Py.lstrip s = EmptyString <-> blank s = true.
Proof.
  unfold blank. induction s as [|c s IH]; simpl; [tauto|].
  destruct (Py.isspace c); simpl; [assumption|]. split; discriminate.
Qed.

Lemma rstrip_empty (s : string) : Py.rstrip s = EmptyString <-> blank s = true.
Proof.
  unfold blank. induction s as [|c s IH]; simpl; [tauto|].
  destruct (Py.rstrip s) eqn:E.
  - destruct (Py.isspace c); simpl; [tauto|]. split; discriminate.
  - split; [discriminate|]. rewrite andb_true_iff. intros [_ H].
    apply IH in H. discriminate.
Qed.

Lemma strip_empty (s : string) : Py.strip s = EmptyString <-> blank s = true.
Proof.
  unfold Py.strip. rewrite rstrip_empty.
  unfold blank. induction s as [|c s IH]; simpl; [tauto|].
  destruct (Py.isspace c) eqn:E; simpl; [assumption|].
  rewrite E. simpl. tauto.
Qed.

Lemma blank_before sep (s : string) : blank s = true -> blank (Py.before sep s) = true.
Proof.
  unfold blank. induction s as [|c s IH]; simpl; [reflexivity|].
  rewrite andb_true_iff. intros [Hc Hs].
  destruct (Ascii.eqb c sep); [reflexivity|]. simpl. now rewrite Hc, IH.
Qed.

(** Stripping the end of a line before cutting its comment does not change
    whether text is left. *)
Lemma blank_before_rstrip (s : string) :
  blank (Py.before "#" (Py.rstrip s)) = blank (Py.before "#" s).
Proof.
  induction s as [|c s IH]; [reflexivity|].
  destruct (Ascii.eqb c "#") eqn:Ec.
  - apply Ascii.eqb_eq in Ec. subst c.
    rewrite rstrip_cons by reflexivity. reflexivity.
  - simpl Py.rstrip. simpl Py.before at 2. rewrite Ec.
    destruct (Py.rstrip s) as [|a r] eqn:Er.
    + assert (Hb : blank s = true) by (now apply rstrip_empty).
      apply (blank_before "#"%char) in Hb.
      change (blank (String c (Py.before "#" s)))
        with (Py.isspace c && blank (Py.before "#" s)).
      rewrite Hb, andb_true_r.
      destruct (Py.isspace c) eqn:Es; [reflexivity|].
      simpl. rewrite Ec. unfold blank. simpl. now rewrite Es.
    + simpl Py.before at 1. rewrite Ec.
      change (blank (String c ?x)) with (Py.isspace c && blank x).
      now rewrite <- IH.
Qed.

(** A line [name:rest], with neither [:] nor [#] in [name]: the first pass
    records the label [name] without the white space around it, and counts
    the line as an instruction word exactly when [rest] has text before
    its comment. *)
Lemma label_line name rest :
  no_char ":" name = true -> no_char "#" name = true ->
  label_of (name +:+ String ":" rest) = Some (Py.strip name)
  /\ takes_address (name +:+ String ":" rest) = negb (blank (Py.before "#" rest)).
Proof.
  intros Hcolon Hhash.
  assert (Hs : stripped (name +:+ String ":" rest)
               = Py.lstrip name +:+ String ":" (Py.before "#" (Py.rstrip rest))).
  { unfold stripped, Py.strip.
    rewrite lstrip_app, rstrip_app by reflexivity.
    apply before_app_other; [now apply lstrip_no_char | reflexivity]. }
  assert (Hne : exists c s, stripped (name +:+ String ":" rest) = String c s).
  { rewrite Hs. destruct (Py.lstrip name); simpl; eauto. }
  destruct Hne as (c & s & Hcs).
  unfold label_of, takes_address. rewrite Hcs, <- Hcs, Hs.
  rewrite after_app_sep, before_app_sep by (now apply lstrip_no_char).
  split.
  - unfold Py.strip. now rewrite lstrip_idem.
  - rewrite <- blank_before_rstrip.
    destruct (Py.strip (Py.before "#" (Py.rstrip rest))) eqn:E.
    + apply strip_empty in E. now rewrite E.
    + destruct (blank (Py.before "#" (Py.rstrip rest))) eqn:B; [|reflexivity].
      apply strip_empty in B. congruence.
Qed.

Lemma first_pass_pc_spec lines : first_pass_pc lines = 4 * count_addresses lines.
Proof. unfold first_pass_pc. rewrite first_pass_loop_pc. lia. Qed.

(** C10. A label defined on several lines: the first pass (a total function,
    it has no error to raise) records each definition over the previous one,
    and the table it returns maps the label to the program counter of the
    pass at the last of the definitions. *)
Theorem duplicate_label_last_wins g pre line1 mid line2 post (l : string) :
  label_of line1 = Some l ->
  label_of line2 = Some l ->
  Forall (fun x => label_of x <> Some l) post ->
  symbol_table (first_pass g (pre ++ line1 :: mid ++ line2 :: post)) !! l
  = Some (first_pass_pc (pre ++ line1 :: mid))
  /\ symbol_table (first_pass g (pre ++ [line1])) !! l = Some (first_pass_pc pre)
  /\ first_pass_pc pre <= first_pass_pc (pre ++ line1 :: mid).
Proof.
  intros H1 H2 Hpost. rewrite !first_pass_pc_spec. split; [|split].
  - replace (pre ++ line1 :: mid ++ line2 :: post)
      with ((pre ++ line1 :: mid) ++ line2 :: post)
      by (now rewrite <- app_assoc).
    unfold first_pass. simpl symbol_table. now apply first_pass_loop_label.
  - unfold first_pass. simpl symbol_table.
    apply first_pass_loop_label; [assumption | constructor].
  - rewrite count_addresses_app.
    pose proof (count_addresses_nonneg (line1 :: mid)). lia.
Qed.

Lemma duplicate_label_last_wins_witness :
  symbol_table (first_pass fresh (["NOP"] ++ "x: NOP" :: ["NOP"] ++ "x:" :: ["HLT"])) !! "x"
  = Some (first_pass_pc (["NOP"] ++ "x: NOP" :: ["NOP"]))
  /\ symbol_table (first_pass fresh (["NOP"] ++ ["x: NOP"])) !! "x"
     = Some (first_pass_pc ["NOP"])
  /\ first_pass_pc ["NOP"] <= first_pass_pc (["NOP"] ++ "x: NOP" :: ["NOP"]).
Proof.
  apply (duplicate_label_last_wins fresh ["NOP"] "x: NOP" ["NOP"] "x:" ["HLT"] "x").
  - reflexivity.
  - reflexivity.
  - repeat constructor; vm_compute; discriminate.
Defined.

Example duplicate_label_addresses :
  symbol_table (first_pass fresh ["NOP"; "x: NOP"; "NOP"; "x:"; "HLT"]) !! "x" = Some 12
  /\ symbol_table (first_pass fresh ["NOP"; "x: NOP"]) !! "x" = Some 4.
Proof. vm_compute. split; reflexivity. Qed.

(** ** The two output streams *)

Lemma value_range base (s : string) (acc : Z) :
  2 <= base -> 0 <= acc -> all_chars (is_digit_of base) s = true ->
  acc * base ^ Z.of_nat (String.length s) <= value base acc s
  < (acc + 1) * base ^ Z.of_nat (String.length s).
Proof.
  intros Hb. revert acc. induction s as [|c r IH]; intros acc Hacc Hs.
  - simpl. lia.
  - simpl in Hs. apply andb_true_iff in Hs as [Hc Hr].
    unfold is_digit_of in Hc.
    simpl value. simpl String.length.
    rewrite Nat2Z.inj_succ, Z.pow_succ_r by lia.
    destruct (Py.digit_value c) as [d|] eqn:Ed; [|discriminate].
    apply Z.ltb_lt in Hc. simpl default.
    assert (Hd : 0 <= d).
    { revert Ed. unfold Py.digit_value.
      repeat (match goal with |- context [if ?b then _ else _] => destruct b eqn:? end);
        intros [= <-]; lia. }
    specialize (IH (acc * base + d) ltac:(nia) Hr).
    assert (0 < base ^ Z.of_nat (String.length r)) by (apply Z.pow_pos_nonneg; lia).
    nia.
Qed.

(** The lines written by the loop: every hex line stands next to the binary
    line it was computed from; a binary line without a hex line can only be
    the last one of a run that failed. *)
Lemma assemble_loop_paired g pc bin hex lines :
  Forall2 hex_of bin hex ->
  exists bs extra,
    bin_lines (assemble_loop g pc bin hex lines) = bs ++ extra
    /\ Forall2 hex_of bs (hex_lines (assemble_loop g pc bin hex lines))
    /\ (failure (assemble_loop g pc bin hex lines) = None -> extra = []).
Proof.
  revert g pc bin hex. induction lines as [|line rest IH]; intros g pc bin hex HF.
  - exists bin, []. simpl. rewrite app_nil_r. auto.
  - simpl. destruct (assemble_instruction g line pc) as [[[w|]|e] g'].
    + destruct w as [|c w]; [now apply IH|].
      destruct (Py.int 2 (String c w)) as [n|] eqn:En.
      * apply IH. apply Forall2_app; [assumption|].
        repeat constructor. now exists n.
      * exists bin, [String c w]. simpl. split; [reflexivity|].
        split; [assumption | discriminate].
    + now apply IH.
    + exists bin, []. simpl. rewrite app_nil_r. split; [reflexivity|].
      split; [assumption | discriminate].
Qed.

(** ** The width and the alphabet of an encoded word *)

Lemma bit_string_app (s t : string) :
  bit_string (s +:+ t) = bit_string s && bit_string t.
Proof. apply all_chars_app. Qed.

Lemma OPCODES_entries inst opcode :
  dict_get OPCODES inst = Some opcode ->
  String.length opcode = 5%nat /\ bit_string opcode = true.
Proof.
  unfold OPCODES. simpl.
  repeat (destruct (String.eqb inst _); [intros [= <-]; split; reflexivity|]).
  discriminate.
Qed.

Lemma REGISTERS_entries tok r :
  reg tok = Some r -> String.length r = 4%nat /\ bit_string r = true.
Proof.
  unfold reg, REGISTERS. simpl.
  repeat (destruct (String.eqb (Py.upper tok) _); [intros [= <-]; split; reflexivity|]).
  discriminate.
Qed.

Lemma named_register_reg tok :
  named_register tok = match reg tok with Some _ => true | None => false end.
Proof. reflexivity. Qed.

Lemma imm_field (n : Z) :
  String.length (Py.format_int 2 18 (Z.land n 262143)) = 18%nat
  /\ bit_string (Py.format_int 2 18 (Z.land n 262143)) = true.
Proof.
  assert (Hr : 0 <= Z.land n 262143 < 2 ^ 18).
  { change 262143 with (Z.ones 18). rewrite Z.land_ones by lia.
    apply Z.mod_pos_bound. lia. }
  split.
  - apply format_int_length; [lia | lia | exact Hr].
  - apply format_int_chars; [lia | lia | reflexivity |].
    intros d Hd. now apply digit_char_bit.
Qed.

Lemma branch_word_bits g opcode label pc :
  String.length opcode = 5%nat -> bit_string opcode = true ->
  String.length (branch_word g opcode label pc) = 32%nat
  /\ bit_string (branch_word g opcode label pc) = true.
Proof.
  intros Ho Hob. unfold branch_word.
  destruct (branch_field (default 0 (symbol_table g !! label) - (pc + 4)))
    as (Hl & Hb & _).
  now rewrite length_app, bit_string_app, Ho, Hob, Hl, Hb.
Qed.

(** Every returned word has 32 characters, and they are all bits exactly
    when every register operand names a register. *)
Lemma encode_word g line pc parts w g' :
  encode g line pc parts = (Return (Some w), g') ->
  String.length w = 32%nat
  /\ bit_string w = forallb named_register (register_operands parts).
Proof.
  unfold encode, imm18. intros H.
  destruct parts as [|inst ops]; [discriminate|].
  destruct (dict_get OPCODES inst) as [opcode|] eqn:Eop; [|discriminate].
  destruct (OPCODES_entries _ _ Eop) as [Ho Hob].
  unfold register_operands.
  repeat (break_hyp H; try discriminate).
  all: injection H as <- <-.
  all: cbv beta iota; cbn [forallb]; rewrite ?named_register_reg, ?andb_true_r.
  all: try (apply branch_word_bits; assumption).
  all: repeat match goal with
       | |- context [reg ?t] =>
           let E := fresh "E" in
           destruct (reg t) eqn:E;
           [apply REGISTERS_entries in E; destruct E|]
       end.
  all: repeat match goal with
       | |- context [Py.format_int 2 18 (Z.land ?n 262143)] =>
           let Hl := fresh "Hl" in
           destruct (imm_field n) as [Hl ?]; unfold bit_string in Hl;
           generalize dependent (Py.format_int 2 18 (Z.land n 262143)); intros
       end.
  all: unfold bit_string in *.
  all: repeat first [rewrite length_app | rewrite all_chars_app
                    | progress cbn [String.length all_chars Py.str_opt]].
  all: repeat match goal with
       | H : String.length _ = _ |- _ => rewrite ?H; clear H
       | H : all_chars _ _ = _ |- _ => rewrite ?H; clear H
       end.
  all: split; reflexivity.
Qed.

(** C4, as the code has it.  Every word that the encoder returns is exactly
    32 characters long, and it consists only of the characters ['0'] and
    ['1'] whenever every register operand of the line names one of the
    registers R0..R15. *)
Theorem encoded_word_width g line pc w g' :
  assemble_instruction g line pc = (Return (Some w), g') ->
  String.length w = 32%nat
  /\ (registers_ok line = true -> bit_string w = true).
Proof.
  unfold assemble_instruction, registers_ok. intros H.
  destruct (encode_word _ _ _ _ _ _ H) as [Hl Hb].
  split; [assumption | congruence].
Qed.

Lemma encoded_word_width_witness :
  String.length "00000000010010001100000000000000" = 32%nat
  /\ bit_string "00000000010010001100000000000000" = true.
Proof.
  destruct (encoded_word_width fresh "ADD R1, R2, R3" 0
              "00000000010010001100000000000000" fresh) as [Hl Hb].
  - vm_compute. reflexivity.
  - split; [exact Hl|]. apply Hb. vm_compute. reflexivity.
Defined.

(** The length does not depend on the registers. *)
Example encoded_word_of_unknown_register :
  assemble_instruction fresh "ADD R1, R2, R16" 0
    = (Return (Some "00000000010010None00000000000000"), fresh)
  /\ registers_ok "ADD R1, R2, R16" = false
  /\ String.length "00000000010010None00000000000000" = 32%nat.
Proof. vm_compute. repeat split. Qed.

(** C4, as the claim states it, fails: an operand that names no register is
    rendered as the text [None], and the word goes to the binary file. *)
Lemma encoded_word_not_bits :
  assemble_instruction fresh "ADD R1 R2 R16" 0
  = (Return (Some "00000000010010None00000000000000"), fresh)
  /\ bit_string "00000000010010None00000000000000" = false
  /\ bin_lines (assemble_file fresh ["ADD R1 R2 R16"])
     = ["00000000010010None00000000000000"].
Proof. vm_compute. repeat split. Qed.

(** ** Letter case *)

Lemma upper_char_idem (c : ascii) : Py.upper_char (Py.upper_char c) = Py.upper_char c.
Proof. by_cases_on_char c. Qed.

Lemma upper_char_digit (c : ascii) :
  Py.isdigit_char (Py.upper_char c) = Py.isdigit_char c.
Proof. by_cases_on_char c. Qed.

Lemma upper_char_minus (c : ascii) :
  Ascii.eqb (Py.upper_char c) "-" = Ascii.eqb c "-".
Proof. by_cases_on_char c. Qed.

Lemma digit_upper_char (c : ascii) :
  Py.isdigit_char c = true -> Py.upper_char c = c.
Proof. by_cases_on_char c. Qed.

Lemma upper_idem (s : string) : Py.upper (Py.upper s) = Py.upper s.
Proof.
  induction s as [|c s IH]; simpl; [reflexivity|].
  now rewrite upper_char_idem, IH.
Qed.

Lemma reg_upper (tok : string) : reg (Py.upper tok) = reg tok.
Proof. unfold reg. now rewrite upper_idem. Qed.

Lemma all_digits_upper (s : string) : Py.all_digits (Py.upper s) = Py.all_digits s.
Proof.
  induction s as [|c s IH]; simpl; [reflexivity|].
  now rewrite upper_char_digit, IH.
Qed.

Lemma isdigit_upper (s : string) : Py.isdigit (Py.upper s) = Py.isdigit s.
Proof.
  destruct s as [|c s]; [reflexivity|].
  apply (all_digits_upper (String c s)).
Qed.

Lemma lstrip_minus_upper (s : string) :
  Py.lstrip_char "-" (Py.upper s) = Py.upper (Py.lstrip_char "-" s).
Proof.
  induction s as [|c s IH]; simpl; [reflexivity|].
  rewrite upper_char_minus. destruct (Ascii.eqb c "-"); [assumption | reflexivity].
Qed.

Lemma is_immediate_upper (tok : string) :
  is_immediate (Py.upper tok) = is_immediate tok.
Proof. unfold is_immediate. now rewrite lstrip_minus_upper, isdigit_upper. Qed.

Lemma all_digits_upper_id (s : string) : Py.all_digits s = true -> Py.upper s = s.
Proof.
  induction s as [|c s IH]; simpl; [reflexivity|].
  rewrite andb_true_iff. intros [Hc Hs].
  now rewrite (digit_upper_char c Hc), (IH Hs).
Qed.

(** Upper case leaves an immediate as it is. *)
Lemma immediate_upper_id (tok : string) :
  is_immediate tok = true -> Py.upper tok = tok.
Proof.
  unfold is_immediate. induction tok as [|c s IH]; [reflexivity|].
  simpl Py.lstrip_char. destruct (Ascii.eqb c "-") eqn:E.
  - apply Ascii.eqb_eq in E. subst c. intros H. simpl. now rewrite (IH H).
  - intros H. apply all_digits_upper_id. exact H.
Qed.

(** The encoder gives the same result on an instruction and on the
    instruction with its register operands in upper case. *)
Lemma encode_upper_registers g line pc parts :
  encode g line pc (upper_registers parts) = encode g line pc parts.
Proof.
  destruct parts as [|inst ops]; [reflexivity|].
  unfold upper_registers, encode, imm18.
  destruct (dict_get OPCODES inst) as [opcode|]; [|reflexivity].
  destruct ops as [|p1 [|p2 [|p3 [|p4 ops]]]];
    repeat match goal with
    | |- context [str_in inst ?l] => destruct (str_in inst l)
    | |- context [String.eqb inst ?l] => destruct (String.eqb inst l)
    end;
    cbn [map]; rewrite ?reg_upper, ?is_immediate_upper; try reflexivity.
  all: match goal with
       | |- context [is_immediate ?t] =>
           destruct (is_immediate t) eqn:E;
           [rewrite (immediate_upper_id t E)|]; reflexivity
       end.
Qed.

(** The text of the line is used in error messages only. *)
Lemma encode_return_any_line g l1 l2 pc parts r g' :
  encode g l1 pc parts = (Return r, g') -> encode g l2 pc parts = (Return r, g').
Proof.
  unfold encode, imm18. intros H.
  repeat (break_hyp H; try discriminate); exact H.
Qed.

(** The mnemonics of the opcode table are in upper case. *)
Lemma OPCODES_upper inst opcode :
  dict_get OPCODES inst = Some opcode -> Py.upper inst = inst.
Proof.
  unfold OPCODES. simpl.
  repeat match goal with
         | |- context [String.eqb inst ?k] =>
             destruct (String.eqb_spec inst k) as [-> | _]; [reflexivity|]
         end.
  discriminate.
Qed.

(** A mnemonic of an instruction with register operands is in [OPCODES]. *)
Lemma register_classes_in_OPCODES inst :
  dict_get OPCODES inst = None ->
  str_in inst ["ADD"; "SUB"; "MUL"; "DIV"; "LSL"; "LSR"; "ASR"; "AND";
               "OR"; "MOD"; "LD"; "ST"] = false
  /\ String.eqb inst "CMP" = false
  /\ str_in inst ["NOT"; "MOV"] = false
  /\ str_in inst ["MOVU"; "MOVH"] = false.
Proof.
  unfold OPCODES, str_in. cbn [dict_get existsb].
  repeat match goal with
         | |- context [String.eqb inst ?k] =>
             destruct (String.eqb_spec inst k) as [-> | _]; [intros [=]|]
         end.
  intros _. repeat split.
Qed.

(** An instruction with register operands, in one of the forms of its
    class and with an immediate (if any) that [int] accepts, is encoded. *)
Lemma encode_returns_word g line pc parts :
  register_operands parts <> [] -> literal_ok parts = true ->
  exists w g', encode g line pc parts = (Return (Some w), g').
Proof.
  unfold encode, imm18, register_operands, literal_ok.
  destruct parts as [|inst ops]; [congruence|].
  destruct (dict_get OPCODES inst) as [opcode|] eqn:Eop.
  2:{ destruct (register_classes_in_OPCODES inst Eop) as (-> & -> & -> & ->).
      congruence. }
  repeat match goal with
         | |- context [str_in inst ?l] => destruct (str_in inst l)
         | |- context [String.eqb inst ?l] => destruct (String.eqb inst l)
         end; try congruence.
  all: destruct ops as [|p1 [|p2 [|p3 [|p4 ops]]]]; try congruence.
  all: repeat match goal with
              | |- context [is_immediate ?t] => destruct (is_immediate t)
              | |- context [Py.int ?b ?t] => destruct (Py.int b t)
              end; intros _ Hl; try discriminate Hl; eauto.
Qed.

(** A register may be named in any letter case. *)
Lemma reg_of_number (tok : string) (k : Z) :
  0 <= k < 16 -> Py.upper tok = "R" +:+ Py.to_base 10 k ->
  reg tok = Some (Py.format_int 2 4 k).
Proof.
  intros Hk Hup. unfold reg. rewrite Hup.
  assert (E : k = 0 \/ k = 1 \/ k = 2 \/ k = 3 \/ k = 4 \/ k = 5 \/ k = 6
              \/ k = 7 \/ k = 8 \/ k = 9 \/ k = 10 \/ k = 11 \/ k = 12
              \/ k = 13 \/ k = 14 \/ k = 15) by lia.
  repeat (destruct E as [-> | E]; [reflexivity|]). subst k. reflexivity.
Qed.

(** C9. Register names are matched without regard to letter case.  A token
    whose upper-case form is [R] and a number from 0 to 15 is looked up as
    that register, with the number in four bits as its code.  A line with
    register operands (in a form of its instruction class, its immediate,
    if any, a literal that [int] accepts) is encoded to a word of 32
    characters, and the same line with its register operands in upper case
    is encoded to the same word, with the same state; the word is made of
    bits exactly when every register operand names a register.  In general,
    whenever either of the two lines returns, the other returns the same.
    The mnemonic has no such freedom: one that is not in upper case is an
    unknown instruction. *)
Theorem register_case_insensitive g line line' pc :
  instruction_tokens line' = upper_registers (instruction_tokens line) ->
  (forall tok k,
     0 <= k < 16 -> Py.upper tok = "R" +:+ Py.to_base 10 k ->
     reg tok = Some (Py.format_int 2 4 k))
  /\ (register_operands (instruction_tokens line) <> [] ->
      literal_ok (instruction_tokens line) = true ->
      exists w g',
        assemble_instruction g line pc = (Return (Some w), g')
        /\ assemble_instruction g line' pc = (Return (Some w), g')
        /\ String.length w = 32%nat
        /\ bit_string w = registers_ok line)
  /\ (forall r g',
        assemble_instruction g line pc = (Return r, g')
        <-> assemble_instruction g line' pc = (Return r, g'))
  /\ (forall l inst ops,
        instruction_tokens l = inst :: ops -> Py.upper inst <> inst ->
        assemble_instruction g l pc = (Raise (UnknownInstruction inst), g)).
Proof.
  intros Ht. split; [exact reg_of_number|].
  assert (Hiff : forall r g',
    assemble_instruction g line pc = (Return r, g')
    <-> assemble_instruction g line' pc = (Return r, g')).
  { intros r g'. unfold assemble_instruction. rewrite Ht. split; intros H.
    - rewrite encode_upper_registers. eapply encode_return_any_line, H.
    - rewrite encode_upper_registers in H. eapply encode_return_any_line, H. }
  split; [|split; [exact Hiff|]].
  - intros Hreg Hlit.
    destruct (encode_returns_word g line pc _ Hreg Hlit) as (w & g' & E).
    exists w, g'. split; [exact E|]. split; [now apply Hiff|].
    unfold registers_ok. now apply encode_word in E.
  - intros l inst ops Hi Hup. unfold assemble_instruction. rewrite Hi. unfold encode.
    destruct (dict_get OPCODES inst) as [opcode|] eqn:E; [|reflexivity].
    apply OPCODES_upper in E. contradiction.
Qed.

Lemma register_case_insensitive_witness :
  reg "r10" = Some (Py.format_int 2 4 10)
  /\ (exists w g',
        assemble_instruction fresh "ADD r1, R2, r10" 0 = (Return (Some w), g')
        /\ assemble_instruction fresh "ADD R1, R2, R10" 0 = (Return (Some w), g')
        /\ String.length w = 32%nat
        /\ bit_string w = registers_ok "ADD r1, R2, r10")
  /\ assemble_instruction fresh "add R1, R2, R10" 0
     = (Raise (UnknownInstruction "add"), fresh).
Proof.
  destruct (register_case_insensitive fresh "ADD r1, R2, r10" "ADD R1, R2, R10" 0)
    as (Hreg & Hword & _ & Hmnemonic).
  - vm_compute. reflexivity.
  - split; [|split].
    + apply (Hreg "r10" 10); [lia | reflexivity].
    + apply Hword; [vm_compute; discriminate | vm_compute; reflexivity].
    + apply (Hmnemonic "add R1, R2, R10" "add" ["R1"; "R2"; "R10"]);
        [vm_compute; reflexivity | vm_compute; discriminate].
Defined.

Example register_case_examples :
  fst (assemble_instruction fresh "ADD r1, R2, r10" 0)
    = Return (Some "00000000010010101000000000000000")
  /\ fst (assemble_instruction fresh "ADD R1, R2, R10" 0)
    = Return (Some "00000000010010101000000000000000")
  /\ fst (assemble_instruction fresh "add R1, R2, R10" 0)
    = Raise (UnknownInstruction "add").
Proof. vm_compute. repeat split. Qed.

(** ** Immediates in hexadecimal *)

Lemma all_chars_snoc P (s : string) (c : ascii) :
  all_chars P (s +:+ String c EmptyString) = all_chars P s && P c.
Proof. rewrite all_chars_app. simpl. now rewrite andb_true_r. Qed.

(** The tokens that [split] returns have no white space in them. *)
Lemma split_from_no_space (cur s : string) :
  all_chars not_space cur = true ->
  Forall (fun t => all_chars not_space t = true) (Py.split_from cur s).
Proof.
  revert cur. induction s as [|c s IH]; intros cur Hcur; simpl.
  - destruct cur; constructor; [assumption | constructor].
  - destruct (Py.isspace c) eqn:Ec.
    + destruct cur; [now apply IH|]. constructor; [assumption | now apply IH].
    + apply IH. rewrite all_chars_snoc, Hcur. unfold not_space. now rewrite Ec.
Qed.

Lemma instruction_tokens_no_space line :
  Forall (fun t => all_chars not_space t = true) (instruction_tokens line).
Proof.
  unfold instruction_tokens.
  pose proof (split_from_no_space EmptyString (Py.remove_char "," line) eq_refl) as H.
  fold (Py.split (Py.remove_char "," line)) in H.
  destruct (Py.split (Py.remove_char "," line)) as [|p0 tl]; [constructor|].
  destruct (Py.endswith_char ":" p0); [now inversion H | assumption].
Qed.

(** A literal with the prefix [0x] is no decimal literal. *)
Lemma int_10_rejects_0x (s : string) :
  all_chars not_space s = true -> Py.startswith "0x" s = true -> Py.int 10 s = None.
Proof.
  intros Hs Hp. unfold Py.int. rewrite (int_strip_no_space s Hs).
  destruct s as [|a [|b r]]; cbn [Py.startswith] in Hp; try discriminate.
  - now rewrite andb_false_r in Hp.
  - rewrite andb_true_r in Hp. apply andb_true_iff in Hp as [Ha Hb].
    apply Ascii.eqb_eq in Ha, Hb. subst a b. reflexivity.
Qed.

Lemma encode_wide_move g line pc inst p1 p2 :
  inst = "MOVU" \/ inst = "MOVH" ->
  encode g line pc [inst; p1; p2]
  = match Py.int (if Py.startswith "0x" (Py.strip p2) then 16 else 10)
            (Py.strip p2) with
    | None =>
        (Raise (InvalidLiteral (if Py.startswith "0x" (Py.strip p2) then 16 else 10)
                  (Py.strip p2)), g)
    | Some imm =>
        (Return (Some (format_binary "01001" "1" (reg p1) (Some "0000")
                         (Some "0000")
                         (Some (if String.eqb inst "MOVU" then Z.land imm 65535
                                else Z.land (Z.shiftl imm 16) 262143)))), g)
    end.
Proof. intros [-> | ->]; reflexivity. Qed.

(** C6, as the code has it.  In [MOVU] and [MOVH] the immediate may be
    written in decimal or with the prefix [0x], and a [0x] literal is
    encoded to the same word as the decimal literal of the same number. *)
Theorem wide_move_hex_literal g line line' pc inst p1 hex dec v :
  inst = "MOVU" \/ inst = "MOVH" ->
  instruction_tokens line = [inst; p1; hex] ->
  instruction_tokens line' = [inst; p1; dec] ->
  Py.startswith "0x" hex = true ->
  Py.int 16 hex = Some v ->
  Py.int 10 dec = Some v ->
  exists w,
    assemble_instruction g line pc = (Return (Some w), g)
    /\ assemble_instruction g line' pc = (Return (Some w), g)
    /\ w = format_binary "01001" "1" (reg p1) (Some "0000") (Some "0000")
             (Some (if String.eqb inst "MOVU" then Z.land v 65535
                    else Z.land (Z.shiftl v 16) 262143)).
Proof.
  intros Hi Ht Ht' Hx Hhex Hdec.
  assert (Hh : all_chars not_space hex = true).
  { pose proof (instruction_tokens_no_space line) as H. rewrite Ht in H.
    rewrite !Forall_cons in H. tauto. }
  assert (Hd : all_chars not_space dec = true).
  { pose proof (instruction_tokens_no_space line') as H. rewrite Ht' in H.
    rewrite !Forall_cons in H. tauto. }
  assert (Hnx : Py.startswith "0x" dec = false).
  { destruct (Py.startswith "0x" dec) eqn:E; [|reflexivity].
    rewrite (int_10_rejects_0x dec Hd E) in Hdec. discriminate. }
  eexists. unfold assemble_instruction. rewrite Ht, Ht'.
  rewrite !encode_wide_move by assumption.
  rewrite (strip_no_space hex Hh), (strip_no_space dec Hd), Hx, Hnx, Hhex, Hdec.
  repeat split.
Qed.

Lemma wide_move_hex_literal_witness :
  exists w,
    assemble_instruction fresh "MOVU R1, 0x1F" 0 = (Return (Some w), fresh)
    /\ assemble_instruction fresh "MOVU R1, 31" 0 = (Return (Some w), fresh)
    /\ w = format_binary "01001" "1" (reg "R1") (Some "0000") (Some "0000")
             (Some (if String.eqb "MOVU" "MOVU" then Z.land 31 65535
                    else Z.land (Z.shiftl 31 16) 262143)).
Proof.
  apply (wide_move_hex_literal fresh "MOVU R1, 0x1F" "MOVU R1, 31" 0 "MOVU" "R1"
           "0x1F" "31" 31).
  - left. reflexivity.
  - reflexivity.
  - reflexivity.
  - reflexivity.
  - reflexivity.
  - reflexivity.
Defined.

(** C6, as the claim states it, fails: outside [MOVU] and [MOVH] a [0x]
    literal is not read as a number but looked up as a register name. *)
Lemma hex_literal_outside_wide_moves :
  fst (assemble_instruction fresh "ADD R1 R2 0x10" 0)
    = Return (Some "00000000010010None00000000000000")
  /\ fst (assemble_instruction fresh "ADD R1 R2 16" 0)
    = Return (Some "00000100010010000000000000010000")
  /\ fst (assemble_instruction fresh "ADD R1 R2 0x10" 0)
     <> fst (assemble_instruction fresh "ADD R1 R2 16" 0).
Proof. vm_compute. repeat split. discriminate. Qed.

(** ** Comments *)

Lemma before_no_sep sep (s : string) : no_char sep s = true -> Py.before sep s = s.
Proof.
  unfold no_char. induction s as [|c s IH]; simpl; [reflexivity|].
  rewrite andb_true_iff. intros [Hc Hs]. apply negb_true_iff in Hc.
  now rewrite Hc, IH.
Qed.

Lemma after_no_sep sep (s : string) : no_char sep s = true -> Py.after sep s = None.
Proof.
  unfold no_char. induction s as [|c s IH]; simpl; [reflexivity|].
  rewrite andb_true_iff. intros [Hc Hs]. apply negb_true_iff in Hc.
  now rewrite Hc, IH.
Qed.

(** A string with [sep] in it is the text before it, [sep], and the text
    after it. *)
Lemma after_Some sep (s rest : string) :
  Py.after sep s = Some rest ->
  s = Py.before sep s +:+ String sep rest /\ no_char sep (Py.before sep s) = true.
Proof.
  unfold no_char. revert rest. induction s as [|c s IH]; intros rest; simpl;
    [discriminate|].
  destruct (Ascii.eqb c sep) eqn:E.
  - apply Ascii.eqb_eq in E. subst c. intros [= ->]. split; reflexivity.
  - intros H. destruct (IH _ H) as [Hs Hn]. simpl. rewrite E, Hn.
    split; [now rewrite <- Hs | reflexivity].
Qed.

Lemma after_None sep (s : string) : Py.after sep s = None -> no_char sep s = true.
Proof.
  unfold no_char. induction s as [|c s IH]; simpl; [reflexivity|].
  destruct (Ascii.eqb c sep); [discriminate|]. intros H. now rewrite IH.
Qed.

Lemma rstrip_no_char ch (s : string) :
  no_char ch s = true -> no_char ch (Py.rstrip s) = true.
Proof.
  unfold no_char. induction s as [|c s IH]; simpl; [reflexivity|].
  rewrite andb_true_iff. intros [Hc Hs]. specialize (IH Hs).
  destruct (Py.rstrip s); [|simpl in *; now rewrite Hc].
  destruct (Py.isspace c); simpl; [reflexivity | now rewrite Hc].
Qed.

Lemma blank_rstrip (s : string) : blank (Py.rstrip s) = blank s.
Proof.
  induction s as [|c s IH]; [reflexivity|].
  change (blank (String c s)) with (Py.isspace c && blank s).
  simpl Py.rstrip. destruct (Py.rstrip s) as [|a r] eqn:E.
  - assert (Hb : blank s = true) by (now apply rstrip_empty).
    rewrite Hb, andb_true_r. destruct (Py.isspace c) eqn:Ec; [reflexivity|].
    unfold blank. simpl. now rewrite Ec.
  - change (blank (String c (String a r))) with (Py.isspace c && blank (String a r)).
    now rewrite IH.
Qed.

Lemma strip_blank_iff (s t : string) :
  blank s = blank t ->
  match Py.strip s with EmptyString => true | _ => false end
  = match Py.strip t with EmptyString => true | _ => false end.
Proof.
  intros H.
  destruct (Py.strip s) eqn:Es, (Py.strip t) eqn:Et; try reflexivity.
  - apply strip_empty in Es. rewrite H in Es. apply strip_empty in Es. congruence.
  - apply strip_empty in Et. rewrite <- H in Et. apply strip_empty in Et. congruence.
Qed.

(** The first pass does not see a trailing comment: a line without [#] and
    the same line followed by a comment are treated alike. *)
Lemma first_pass_ignores_comment st (s c : string) :
  no_char "#" s = true ->
  first_pass_line st (s +:+ String "#" c) = first_pass_line st s.
Proof.
  intros Hs. destruct st as [tbl pc]. unfold first_pass_line, Py.strip.
  rewrite lstrip_app, rstrip_app by reflexivity.
  rewrite (before_app_sep "#") by (now apply lstrip_no_char).
  rewrite (before_no_sep "#") by (now apply rstrip_no_char, lstrip_no_char).
  destruct (Py.lstrip s) as [|a x] eqn:Ex; [reflexivity|].
  assert (Ha : Py.isspace a = false).
  { destruct s as [|b s']; [discriminate|]. clear Hs. revert b Ex.
    induction s' as [|b' s' IH]; intros b; simpl.
    - destruct (Py.isspace b) eqn:E; [discriminate|]. now intros [= <- _].
    - destruct (Py.isspace b) eqn:E; [apply IH|]. now intros [= <- _]. }
  rewrite (rstrip_cons a x Ha).
  destruct (Py.after ":" (String a x)) as [rest|] eqn:Ea.
  - destruct (after_Some _ _ _ Ea) as [Hdec Hno].
    assert (Hr : Py.rstrip (String a x)
                 = Py.before ":" (String a x) +:+ String ":" (Py.rstrip rest)).
    { rewrite Hdec at 1. now apply rstrip_app. }
    rewrite <- (rstrip_cons a x Ha), Hr.
    rewrite after_app_sep, before_app_sep by assumption.
    pose proof (strip_blank_iff (Py.rstrip rest) rest (blank_rstrip rest)) as Hb.
    destruct (Py.before ":" (String a x) +:+ String ":" (Py.rstrip rest)) eqn:Ez.
    { destruct (Py.before ":" (String a x)); discriminate. }
    unfold Py.strip in *.
    destruct (Py.rstrip (Py.lstrip (Py.rstrip rest))),
             (Py.rstrip (Py.lstrip rest)); try discriminate; reflexivity.
  - rewrite <- (rstrip_cons a x Ha).
    rewrite after_no_sep by (now apply rstrip_no_char, after_None).
    destruct (Py.rstrip (String a x)) eqn:Ez; [|reflexivity].
    rewrite (rstrip_cons a x Ha) in Ez. discriminate.
Qed.

(** C5 fails in the encoder.  The first pass cuts a line at its first [#],
    the encoder does not: an instruction with a trailing comment is refused
    where the bare instruction is encoded, and a comment line, which the
    first pass skips, is an unknown instruction. *)
Lemma comment_reaches_encoder :
  fst (assemble_instruction fresh "ADD R1 R2 R3 # sum" 0)
    = Raise (InvalidInstructionFormat "ADD R1 R2 R3 # sum")
  /\ fst (assemble_instruction fresh "ADD R1 R2 R3" 0)
    = Return (Some "00000000010010001100000000000000")
  /\ fst (assemble_instruction fresh "# set up" 0) = Raise (UnknownInstruction "#")
  /\ first_pass_line (∅, 0) "ADD R1 R2 R3 # sum" = first_pass_line (∅, 0) "ADD R1 R2 R3"
  /\ first_pass_line (∅, 0) "# set up" = (∅, 0)
  /\ failure (assemble_file fresh ["# set up"; "NOP"]) = Some (UnknownInstruction "#")
  /\ bin_lines (assemble_file fresh ["# set up"; "NOP"]) = [].
Proof. vm_compute. repeat split. Qed.

(** ** The program counters of the two passes *)

Lemma encode_none g line pc parts g' :
  encode g line pc parts = (Return None, g') -> parts = [].
Proof.
  unfold encode, imm18. intros H.
  repeat (break_hyp H; try discriminate); reflexivity.
Qed.

(** In a run that does not fail, the encoding loop advances its program
    counter by 4 on exactly the lines that carry an instruction. *)
Lemma assemble_loop_pc g pc bin hex lines :
  failure (assemble_loop g pc bin hex lines) = None ->
  final_pc (assemble_loop g pc bin hex lines)
  = pc + 4 * Z.of_nat (length (List.filter has_instruction lines)).
Proof.
  revert g pc bin hex. induction lines as [|l lines IH]; intros g pc bin hex.
  - simpl. lia.
  - simpl assemble_loop. simpl List.filter. unfold has_instruction at 1.
    destruct (assemble_instruction g l pc) as [[[w|]|e] g'] eqn:E;
      unfold assemble_instruction in E; [| |discriminate].
    + destruct (encode_word _ _ _ _ _ _ E) as [Hlen _].
      destruct (instruction_tokens l) eqn:Et; [discriminate|].
      destruct w as [|c w]; [discriminate|].
      destruct (Py.int 2 (String c w)); [|discriminate].
      intros Hf. rewrite (IH _ _ _ _ Hf). simpl length. lia.
    + apply encode_none in E. rewrite E. apply IH.
Qed.

(** When the two passes agree, on the lines before a point of a run that
    does not fail, about which lines carry an instruction, they agree about
    the address of that point: what the first pass records for a label there
    is the address at which the encoder emits the next word. *)
Lemma passes_agree_on_address g lines pre :
  failure (run_prefix g lines pre) = None ->
  Forall (fun l => takes_address l = has_instruction l) pre ->
  final_pc (run_prefix g lines pre) = first_pass_pc pre.
Proof.
  intros Hf Hagree. unfold run_prefix in *.
  pose proof (assemble_loop_pc _ _ _ _ _ Hf) as Hpc. rewrite Hpc.
  rewrite first_pass_pc_spec. unfold count_addresses.
  replace (List.filter takes_address pre) with (List.filter has_instruction pre);
    [lia|].
  clear Hf Hpc. induction Hagree as [|l pre Hl _ IH]; [reflexivity|].
  simpl. rewrite Hl, IH. reflexivity.
Qed.

(** C3, as the code has it.  A line [name:rest] (neither [:] nor [#] in
    [name]) whose label is
    not defined again later: after the first pass the symbol table maps the
    label to the program counter the pass had on reaching the line, which is
    four times the number of earlier lines it counted as instruction words.
    With an instruction after the label the line itself advances the counter
    by 4; with none it leaves the counter alone, and so do the lines without
    an instruction that follow, so that the next line with an instruction is
    at the address of the label.  The counter of the first pass at a point
    of the file is the address at which the encoder emits its next word
    there, provided the run gets there and the two passes have agreed on
    which lines carry an instruction. *)
Theorem label_address g pre name rest post :
  no_char ":" name = true ->
  no_char "#" name = true ->
  Forall (fun l => label_of l <> Some (Py.strip name)) post ->
  symbol_table (first_pass g (pre ++ (name +:+ String ":" rest) :: post))
    !! Py.strip name = Some (first_pass_pc pre)
  /\ first_pass_pc pre = 4 * count_addresses pre
  /\ (blank (Py.before "#" rest) = false ->
      first_pass_pc (pre ++ [name +:+ String ":" rest]) = first_pass_pc pre + 4)
  /\ (blank (Py.before "#" rest) = true ->
      forall gap, Forall (fun l => takes_address l = false) gap ->
      first_pass_pc (pre ++ (name +:+ String ":" rest) :: gap) = first_pass_pc pre)
  /\ (forall upto,
        failure (run_prefix g (pre ++ (name +:+ String ":" rest) :: post) upto) = None ->
        Forall (fun l => takes_address l = has_instruction l) upto ->
        final_pc (run_prefix g (pre ++ (name +:+ String ":" rest) :: post) upto)
        = first_pass_pc upto).
Proof.
  intros Hcolon Hhash Hpost.
  destruct (label_line name rest Hcolon Hhash) as [Hlab Htakes].
  split; [|split; [apply first_pass_pc_spec|split; [|split]]].
  - rewrite first_pass_pc_spec. unfold first_pass. simpl symbol_table.
    now apply first_pass_loop_label.
  - intros Hb.
    rewrite !first_pass_pc_spec, count_addresses_app, count_addresses_cons.
    rewrite Htakes, Hb. simpl. unfold count_addresses. simpl. lia.
  - intros Hb gap Hgap.
    rewrite !first_pass_pc_spec, count_addresses_app, count_addresses_cons.
    rewrite Htakes, Hb. simpl negb. cbv iota.
    assert (Hz : count_addresses gap = 0).
    { clear -Hgap. induction Hgap as [|l gap Hl _ IH]; [reflexivity|].
      rewrite count_addresses_cons, Hl, IH. reflexivity. }
    lia.
  - intros upto Hf Hagree. now apply passes_agree_on_address.
Qed.

Lemma label_address_witness :
  symbol_table (first_pass fresh (["MOV R1 5"; "# loop head"] ++ (" loop" +:+ String ":" " ") :: ["CMP R1 5"; "BEQ loop"]))
    !! Py.strip " loop" = Some (first_pass_pc ["MOV R1 5"; "# loop head"])
  /\ first_pass_pc ["MOV R1 5"; "# loop head"]
     = 4 * count_addresses ["MOV R1 5"; "# loop head"]
  /\ (blank (Py.before "#" " ") = false ->
      first_pass_pc (["MOV R1 5"; "# loop head"] ++ [" loop" +:+ String ":" " "])
      = first_pass_pc ["MOV R1 5"; "# loop head"] + 4)
  /\ (blank (Py.before "#" " ") = true ->
      forall gap, Forall (fun l => takes_address l = false) gap ->
      first_pass_pc (["MOV R1 5"; "# loop head"] ++ (" loop" +:+ String ":" " ") :: gap)
      = first_pass_pc ["MOV R1 5"; "# loop head"])
  /\ (forall upto,
        failure (run_prefix fresh (["MOV R1 5"; "# loop head"] ++ (" loop" +:+ String ":" " ") :: ["CMP R1 5"; "BEQ loop"]) upto) = None ->
        Forall (fun l => takes_address l = has_instruction l) upto ->
        final_pc (run_prefix fresh (["MOV R1 5"; "# loop head"] ++ (" loop" +:+ String ":" " ") :: ["CMP R1 5"; "BEQ loop"]) upto)
        = first_pass_pc upto).
Proof.
  apply (label_address fresh ["MOV R1 5"; "# loop head"] " loop" " "
           ["CMP R1 5"; "BEQ loop"]).
  - reflexivity.
  - reflexivity.
  - repeat constructor; vm_compute; discriminate.
Defined.

(** C3, as the claim states it, fails: the address of a label is the count
    of the first pass, which takes a line of commas for an instruction,
    where the encoder emits nothing.  The label [x] gets the address 4, the
    word of its line is emitted at the address 0, and the branch to [x]
    is encoded against the address 4. *)
Lemma label_not_at_the_emitted_word :
  symbol_table (first_pass fresh [","; "x: NOP"; "B x"]) !! "x" = Some 4
  /\ final_pc (run_prefix fresh [","; "x: NOP"; "B x"] [","]) = 0
  /\ outcome_after fresh [","; "x: NOP"; "B x"] [","] "x: NOP"
     = Return (Some "01101000000000000000000000000000")
  /\ failure (assemble_file fresh [","; "x: NOP"; "B x"]) = None
  /\ bin_lines (assemble_file fresh [","; "x: NOP"; "B x"])
     = ["01101000000000000000000000000000"; "10010111111111111111111111111100"].
Proof. vm_compute. repeat split. Qed.

(** They need not agree: the first pass counts every line that is not empty
    as an instruction, also one on which the encoder finds no token. *)
Example first_pass_counts_a_comma_line :
  takes_address "," = true /\ has_instruction "," = false
  /\ symbol_table (first_pass fresh [","; "x: NOP"]) !! "x" = Some 4
  /\ final_pc (run_prefix fresh [","; "x: NOP"] [","]) = 0.
Proof. vm_compute. repeat split. Qed.

(** ** More checks on concrete lines *)

Example encoding_examples :
  fst (assemble_instruction fresh "SUB R3, R4, -1" 0)
    = Return (Some "00001100110100111111111111111111")
  /\ fst (assemble_instruction fresh "LD R1 R2 R3" 0)
    = Return (Some "01110000010010001100000000000000")
  /\ fst (assemble_instruction fresh "NOT R1 R2" 0)
    = Return (Some "01000000010000001000000000000000")
  /\ fst (assemble_instruction fresh "MOVH R1 0x1" 0)
    = Return (Some "01001100010000010000000000000000")
  /\ fst (assemble_instruction fresh "MOVU R1 0xABCD" 0)
    = Return (Some "01001100010000001010101111001101")
  /\ fst (assemble_instruction fresh "B x" 0)
    = Return (Some "10010111111111111111111111111100")
  /\ fst (assemble_instruction fresh "RET" 0)
    = Return (Some "10100000000000000000000000000000")
  /\ fst (assemble_instruction fresh "BEQ" 0) = Raise (InvalidSyntax "BEQ" "BEQ")
  /\ fst (assemble_instruction fresh "BEQ x" 0) = Raise (MustFollowCmp "BEQ")
  /\ fst (assemble_instruction fresh "lbl:" 0) = Return None
  /\ fst (assemble_instruction fresh "FOO R1 R2" 0) = Raise (UnknownInstruction "FOO")
  /\ fst (assemble_instruction fresh "ADD R1 R2" 0)
    = Raise (InvalidInstructionFormat "ADD R1 R2")
  /\ fst (assemble_instruction fresh "ADD R1 R2 --5" 0) = Raise (InvalidLiteral 10 "--5").
Proof. vm_compute. repeat split. Qed.

(** * Further properties of the code *)

(** ** What the driver writes *)

Lemma bits_are_word_chars (s : string) :
  bit_string s = true -> all_chars word_char s = true.
Proof.
  apply all_chars_impl. intros c Hc. unfold word_char. now rewrite Hc.
Qed.

Lemma word_char_plain (c : ascii) :
  word_char c = true ->
  Py.isspace c = false /\ Ascii.eqb c "_"%char = false
  /\ Ascii.eqb c "-"%char = false /\ Ascii.eqb c "+"%char = false
  /\ Ascii.eqb c "b"%char = false /\ Ascii.eqb c "B"%char = false.
Proof. by_cases_on_char c; repeat split. Qed.

(** The characters of a returned word are bits and letters of [None]. *)
Lemma encode_word_chars g line pc parts w g' :
  encode g line pc parts = (Return (Some w), g') -> all_chars word_char w = true.
Proof.
  unfold encode, imm18. intros H.
  destruct parts as [|inst ops]; [discriminate|].
  destruct (dict_get OPCODES inst) as [opcode|] eqn:Eop; [|discriminate].
  destruct (OPCODES_entries _ _ Eop) as [_ Hob].
  apply bits_are_word_chars in Hob.
  repeat (break_hyp H; try discriminate).
  all: injection H as <- <-.
  all: unfold branch_word.
  all: repeat match goal with
       | |- context [reg ?t] =>
           let E := fresh "E" in
           destruct (reg t) eqn:E;
           [apply REGISTERS_entries in E; destruct E as [_ E];
            apply bits_are_word_chars in E|]
       end.
  all: repeat match goal with
       | |- context [Py.format_int 2 18 (Z.land ?n 262143)] =>
           let Hl := fresh "Hl" in
           destruct (imm_field n) as [_ Hl]; apply bits_are_word_chars in Hl;
           generalize dependent (Py.format_int 2 18 (Z.land n 262143)); intros
       | |- context [Py.format_int 2 27 (Z.land ?n 134217727)] =>
           let Hl := fresh "Hl" in
           destruct (branch_field n) as (_ & Hl & _); apply bits_are_word_chars in Hl;
           generalize dependent (Py.format_int 2 27 (Z.land n 134217727)); intros
       end.
  all: repeat first [rewrite all_chars_app
                    | progress cbn [all_chars Py.str_opt]].
  all: repeat match goal with
       | H : all_chars _ _ = _ |- _ => rewrite ?H; clear H
       end.
  all: reflexivity.
Qed.

Lemma scan_digits_bits (s : string) p acc k r :
  Py.scan_digits 2 p acc k s = Some r ->
  all_chars word_char s = true -> bit_string s = true.
Proof.
  revert p acc k. induction s as [|c s IH]; intros p acc k; simpl; [reflexivity|].
  intros H Hw. apply andb_true_iff in Hw as [Hc Hs].
  destruct (word_char_plain c Hc) as (_ & Hu & _). rewrite Hu in H.
  destruct (Py.digit_value c) as [d|] eqn:Ed; [|discriminate].
  destruct (d <? 2) eqn:Elt; [|discriminate].
  assert (Hb : is_bit c = true).
  { apply digit_of_2_is_bit. unfold is_digit_of. now rewrite Ed. }
  unfold bit_string in *. simpl. rewrite Hb. simpl. eapply IH; eauto.
Qed.

(** A word that [int(w, 2)] accepts is a bit-string. *)
Lemma int_2_word (w : string) (n : Z) :
  all_chars word_char w = true -> Py.int 2 w = Some n -> bit_string w = true.
Proof.
  intros Hw. unfold Py.int.
  rewrite int_strip_no_space.
  2:{ revert Hw. apply all_chars_impl. intros c Hc. unfold not_space.
      now destruct (word_char_plain c Hc) as (-> & _). }
  destruct w as [|a w]; [discriminate|].
  pose proof Hw as Hw'. simpl in Hw'. apply andb_true_iff in Hw' as [Ha Hr].
  destruct (word_char_plain a Ha) as (_ & Hu & Hm & Hp & _).
  unfold Py.take_sign. rewrite Hm, Hp.
  assert (Hpre : Py.take_prefix 2 (String a w) = String a w).
  { destruct w as [|b w]; [reflexivity|]. simpl.
    simpl in Hr. apply andb_true_iff in Hr as [Hb _].
    destruct (word_char_plain b Hb) as (_ & _ & _ & _ & -> & ->).
    simpl. now rewrite andb_false_r. }
  rewrite Hpre, Hu.
  destruct (Py.scan_digits 2 false 0 0 (String a w)) as [[v k]|] eqn:E;
    [|discriminate].
  intros _. eapply scan_digits_bits; eauto.
Qed.

Lemma assemble_loop_width g pc bin hex lines :
  Forall (fun b => String.length b = 32%nat) bin ->
  Forall (fun b => String.length b = 32%nat)
    (bin_lines (assemble_loop g pc bin hex lines)).
Proof.
  revert g pc bin hex. induction lines as [|l lines IH]; intros g pc bin hex HF;
    [assumption|].
  simpl. destruct (assemble_instruction g l pc) as [[[w|]|e] g'] eqn:E; auto.
  unfold assemble_instruction in E.
  destruct (encode_word _ _ _ _ _ _ E) as [Hl _].
  assert (HF' : Forall (fun b => String.length b = 32%nat) (bin ++ [w])).
  { apply Forall_app. split; [assumption | repeat constructor; assumption]. }
  destruct w; [discriminate|]. destruct (Py.int 2 _); auto.
Qed.

(** X1. Every line that a run writes to the binary file, from whatever
    state it starts and however it ends, has exactly 32 characters. *)
Theorem binary_lines_have_32_characters g lines :
  Forall (fun b => String.length b = 32%nat) (bin_lines (assemble_file g lines)).
Proof. apply assemble_loop_width. constructor. Qed.

Lemma hex_of_word32 (b h : string) : word32 b -> hex_of b h -> hex8 h.
Proof.
  intros [Hlen Hbits] (n & Hn & ->).
  assert (Hd : all_chars (is_digit_of 2) b = true)
    by (revert Hbits; apply all_chars_impl, is_bit_digit).
  assert (Hne : b <> EmptyString) by (intros ->; discriminate).
  rewrite int_plain in Hn by auto. injection Hn as <-.
  pose proof (value_range 2 b 0 ltac:(lia) ltac:(lia) Hd) as Hr.
  rewrite Hlen in Hr. split.
  - apply format_int_length; [lia | lia |]. simpl in Hr |- *. lia.
  - apply format_int_chars; [lia | lia | reflexivity |].
    intros d Hd'. now apply digit_char_upper_hex.
Qed.

(** The loop keeps the two files in step: the binary lines that have a hex
    line are 32-bit strings, and a binary line without one is a lone last
    line on which the conversion to hex failed. *)
Lemma assemble_loop_in_step g pc bin hex lines :
  Forall2 (fun b h => word32 b /\ hex_of b h) bin hex ->
  exists bs extra,
    bin_lines (assemble_loop g pc bin hex lines) = bs ++ extra
    /\ Forall2 (fun b h => word32 b /\ hex_of b h) bs
         (hex_lines (assemble_loop g pc bin hex lines))
    /\ (extra = []
        \/ exists w, extra = [w] /\ bit_string w = false
             /\ failure (assemble_loop g pc bin hex lines)
                = Some (InvalidLiteral 2 w)).
Proof.
  revert g pc bin hex. induction lines as [|line rest IH]; intros g pc bin hex HF.
  - exists bin, []. simpl. rewrite app_nil_r. auto.
  - simpl. destruct (assemble_instruction g line pc) as [[[w|]|e] g'] eqn:E.
    + unfold assemble_instruction in E.
      destruct (encode_word _ _ _ _ _ _ E) as [Hlen _].
      pose proof (encode_word_chars _ _ _ _ _ _ E) as Hchars.
      destruct w as [|c w]; [discriminate|].
      destruct (Py.int 2 (String c w)) as [n|] eqn:En.
      * apply IH. apply Forall2_app; [assumption|].
        repeat constructor; [assumption | eapply int_2_word; eauto |].
        now exists n.
      * exists bin, [String c w]. simpl. split; [reflexivity|].
        split; [assumption|]. right. exists (String c w).
        split; [reflexivity|]. split; [|reflexivity].
        destruct (bit_string (String c w)) eqn:Eb; [|reflexivity].
        rewrite int_plain in En; [discriminate | auto | discriminate |].
        revert Eb. apply all_chars_impl, is_bit_digit.
    + now apply IH.
    + exists bin, []. simpl. rewrite app_nil_r. auto.
Qed.

(** C7, as the code has it.  Every line of the binary file that is a
    string of bits has a hex line at the same position, and that line is
    the uppercase hexadecimal form, zero-padded to 8 digits and exactly 8
    digits long, of the number below 2^32 that the binary line denotes;
    read back in base 16 it gives the same number.  The hex file never has
    more lines than the binary file, and after a run without failure it has
    as many. *)
Theorem hex_line_matches_binary g lines (i : nat) (b : string) :
  bin_lines (assemble_file g lines) !! i = Some b ->
  bit_string b = true ->
  exists n h,
    hex_lines (assemble_file g lines) !! i = Some h
    /\ Py.int 2 b = Some n
    /\ 0 <= n < 2 ^ 32
    /\ h = Py.format_int 16 8 n
    /\ Py.int 16 h = Some n
    /\ hex8 h
    /\ (length (hex_lines (assemble_file g lines))
        <= length (bin_lines (assemble_file g lines)))%nat
    /\ (failure (assemble_file g lines) = None ->
        length (bin_lines (assemble_file g lines))
        = length (hex_lines (assemble_file g lines))).
Proof.
  unfold assemble_file. intros Hb Hbits.
  destruct (assemble_loop_in_step (first_pass g lines) 0 [] [] lines)
    as (bs & extra & Hbin & HF & Hex); [constructor|].
  rewrite Hbin in *. pose proof (Forall2_length _ _ _ HF) as Hlen.
  assert (Hi : (i < length bs)%nat).
  { destruct (decide (i < length bs)%nat) as [Hlt|Hge]; [assumption|exfalso].
    rewrite lookup_app_r in Hb by lia.
    destruct Hex as [-> | (w & -> & Hw & _)]; [now rewrite lookup_nil in Hb|].
    destruct (i - length bs)%nat eqn:Ei;
      [|now rewrite lookup_cons_ne_0, lookup_nil in Hb by lia].
    simpl in Hb. injection Hb as ->. congruence. }
  rewrite lookup_app_l in Hb by assumption.
  destruct (Forall2_lookup_l _ _ _ _ _ HF Hb) as (h & Hh & Hw & Hhex).
  pose proof (hex_of_word32 b h Hw Hhex) as H8.
  destruct Hhex as (n & Hn & ->). exists n, (Py.format_int 16 8 n).
  assert (Hd : all_chars (is_digit_of 2) b = true)
    by (revert Hbits; apply all_chars_impl, is_bit_digit).
  assert (Hr : 0 <= n < 2 ^ 32).
  { destruct Hw as [Hl32 _].
    rewrite int_plain in Hn; [| auto | intros ->; discriminate | assumption].
    injection Hn as <-.
    pose proof (value_range 2 b 0 ltac:(lia) ltac:(lia) Hd) as Hv.
    rewrite Hl32 in Hv. simpl in Hv |- *. lia. }
  split; [assumption|]. split; [assumption|]. split; [assumption|].
  split; [reflexivity|]. split; [apply int_format_int; auto|].
  split; [assumption|]. rewrite List.length_app. split; [lia|].
  intros Hf. destruct Hex as [-> | (w & _ & _ & Hfail)]; [simpl; lia|].
  rewrite Hf in Hfail. discriminate.
Qed.

Lemma hex_line_matches_binary_witness :
  exists n h,
    hex_lines (assemble_file fresh scenario) !! 2%nat = Some h
    /\ Py.int 2 "10000111111111111111111111110100" = Some n
    /\ 0 <= n < 2 ^ 32
    /\ h = Py.format_int 16 8 n
    /\ Py.int 16 h = Some n
    /\ hex8 h
    /\ (length (hex_lines (assemble_file fresh scenario))
        <= length (bin_lines (assemble_file fresh scenario)))%nat
    /\ (failure (assemble_file fresh scenario) = None ->
        length (bin_lines (assemble_file fresh scenario))
        = length (hex_lines (assemble_file fresh scenario))).
Proof.
  apply (hex_line_matches_binary fresh scenario 2 "10000111111111111111111111110100").
  - vm_compute. reflexivity.
  - vm_compute. reflexivity.
Defined.

(** C7, as the claim states it, fails: a run can write a binary line and
    end on it without a hex line, so that the binary file has one line more
    than the hex file. *)
Lemma binary_line_without_hex_line :
  bin_lines (assemble_file fresh ["NOP"; "ADD R1 R2 R16"; "HLT"])
    = ["01101000000000000000000000000000"; "00000000010010None00000000000000"]
  /\ hex_lines (assemble_file fresh ["NOP"; "ADD R1 R2 R16"; "HLT"]) = ["68000000"]
  /\ hex_lines (assemble_file fresh ["NOP"; "ADD R1 R2 R16"; "HLT"]) !! 1%nat = None.
Proof. vm_compute. repeat split. Qed.

(** X2. Every line of the hex file has exactly 8 characters, all uppercase
    hexadecimal digits. *)
Theorem hex_lines_have_8_digits g lines :
  Forall hex8 (hex_lines (assemble_file g lines)).
Proof.
  unfold assemble_file.
  destruct (assemble_loop_in_step (first_pass g lines) 0 [] [] lines)
    as (bs & extra & _ & HF & _); [constructor|].
  induction HF as [|b h bs hs [Hw Hh] _ IH]; constructor; [|assumption].
  eapply hex_of_word32; eauto.
Qed.

(** X3. A line of the binary file that is not a string of 32 bits can only
    be the last line of the file, in a run that ended because that line
    could not be converted to hex; every earlier line is 32 bits and has
    its hex line. *)
Theorem only_the_last_binary_line_can_be_malformed g lines (i : nat) (b : string) :
  bin_lines (assemble_file g lines) !! i = Some b ->
  bit_string b = false ->
  S i = length (bin_lines (assemble_file g lines))
  /\ i = length (hex_lines (assemble_file g lines))
  /\ failure (assemble_file g lines) = Some (InvalidLiteral 2 b).
Proof.
  unfold assemble_file. intros Hb Hbits.
  destruct (assemble_loop_in_step (first_pass g lines) 0 [] [] lines)
    as (bs & extra & Hbin & HF & Hex); [constructor|].
  rewrite Hbin in *. pose proof (Forall2_length _ _ _ HF) as Hlen.
  destruct (decide (i < length bs)%nat) as [Hlt|Hge].
  - exfalso. rewrite lookup_app_l in Hb by assumption.
    destruct (Forall2_lookup_l _ _ _ _ _ HF Hb) as (h & _ & [_ Hw] & _).
    congruence.
  - rewrite lookup_app_r in Hb by lia.
    destruct Hex as [-> | (w & -> & Hw & Hf)]; [now rewrite lookup_nil in Hb|].
    destruct (i - length bs)%nat eqn:Ei; [|now rewrite lookup_cons_ne_0, lookup_nil in Hb by lia].
    simpl in Hb. injection Hb as ->.
    rewrite List.length_app. simpl. repeat split; [lia | lia | assumption].
Qed.

Lemma only_the_last_binary_line_can_be_malformed_witness :
  S 1 = length (bin_lines (assemble_file fresh ["NOP"; "ADD R1 R2 R16"; "HLT"]))
  /\ 1%nat = length (hex_lines (assemble_file fresh ["NOP"; "ADD R1 R2 R16"; "HLT"]))
  /\ failure (assemble_file fresh ["NOP"; "ADD R1 R2 R16"; "HLT"])
     = Some (InvalidLiteral 2 "00000000010010None00000000000000").
Proof.
  apply (only_the_last_binary_line_can_be_malformed fresh
           ["NOP"; "ADD R1 R2 R16"; "HLT"] 1 "00000000010010None00000000000000").
  - vm_compute. reflexivity.
  - vm_compute. reflexivity.
Defined.

Lemma assemble_loop_extends g pc bin hex lines :
  exists bin' hex',
    bin_lines (assemble_loop g pc bin hex lines) = bin ++ bin'
    /\ hex_lines (assemble_loop g pc bin hex lines) = hex ++ hex'
    /\ final_pc (assemble_loop g pc bin hex lines)
       = pc + 4 * Z.of_nat (length hex').
Proof.
  revert g pc bin hex. induction lines as [|l lines IH]; intros g pc bin hex.
  - exists [], []. simpl. rewrite !app_nil_r. repeat split. lia.
  - simpl. destruct (assemble_instruction g l pc) as [[[w|]|e] g']; auto.
    + destruct w as [|c w]; [apply IH|].
      destruct (Py.int 2 (String c w)) as [n|].
      * destruct (IH g' (pc + 4) (bin ++ [String c w])
                    (hex ++ [Py.format_int 16 8 n])) as (b' & h' & Hb & Hh & Hpc).
        exists (String c w :: b'), (Py.format_int 16 8 n :: h').
        rewrite Hb, Hh, Hpc, <- !app_assoc. simpl. repeat split. lia.
      * exists [String c w], []. simpl. rewrite app_nil_r. repeat split. lia.
    + exists [], []. simpl. rewrite !app_nil_r. repeat split. lia.
Qed.

(** X4. The program counter of the encoding loop counts the words that got
    through: when a run ends, in whatever way, it is four times the number
    of lines in the hex file. *)
Theorem program_counter_counts_hex_lines g lines :
  final_pc (assemble_file g lines)
  = 4 * Z.of_nat (length (hex_lines (assemble_file g lines))).
Proof.
  unfold assemble_file.
  destruct (assemble_loop_extends (first_pass g lines) 0 [] [] lines)
    as (b' & h' & _ & Hh & Hpc).
  rewrite Hpc, Hh. simpl. lia.
Qed.

(** X5. An error is fatal and nothing is taken back: once the run over the
    first lines of a file has failed, the lines that follow change nothing
    in its result; and in any case what further lines do to the two output
    files is to append to them. *)
Theorem failure_stops_the_run g lines pre post :
  (forall e, failure (run_prefix g lines pre) = Some e ->
     run_prefix g lines (pre ++ post) = run_prefix g lines pre)
  /\ (exists more, bin_lines (run_prefix g lines (pre ++ post))
                   = bin_lines (run_prefix g lines pre) ++ more)
  /\ (exists more, hex_lines (run_prefix g lines (pre ++ post))
                   = hex_lines (run_prefix g lines pre) ++ more).
Proof.
  unfold run_prefix. rewrite assemble_loop_app. cbv zeta.
  destruct (failure (assemble_loop (first_pass g lines) 0 [] [] pre)) as [e|] eqn:Ef.
  - split; [reflexivity|]. split; exists []; now rewrite app_nil_r.
  - split; [discriminate|].
    destruct (assemble_loop_extends
                (final_globals (assemble_loop (first_pass g lines) 0 [] [] pre))
                (final_pc (assemble_loop (first_pass g lines) 0 [] [] pre))
                (bin_lines (assemble_loop (first_pass g lines) 0 [] [] pre))
                (hex_lines (assemble_loop (first_pass g lines) 0 [] [] pre)) post)
      as (b' & h' & Hb & Hh & _).
    split; eauto.
Qed.

Lemma assemble_loop_symbol_table g pc bin hex lines :
  symbol_table (final_globals (assemble_loop g pc bin hex lines)) = symbol_table g.
Proof.
  revert g pc bin hex. induction lines as [|l lines IH]; intros g pc bin hex;
    [reflexivity|].
  simpl. pose proof (proj1 (assemble_instruction_keeps g l pc)) as Hk.
  destruct (assemble_instruction g l pc) as [[[w|]|e] g']; simpl in Hk;
    rewrite ?IH; auto.
  destruct w; rewrite ?IH; auto. destruct (Py.int 2 _); rewrite ?IH; auto.
Qed.

(** X6. The symbol table is read-only during encoding: when a run ends, in
    whatever way, the table is the one the first pass left. *)
Theorem encoding_leaves_the_symbol_table g lines :
  symbol_table (final_globals (assemble_file g lines))
  = symbol_table (first_pass g lines).
Proof. apply assemble_loop_symbol_table. Qed.

(** ** What the first pass leaves in the symbol table *)

(** The last line that defines a label. *)
Lemma last_definition lines (l : string) :
  Exists (fun line => label_of line = Some l) lines ->
  exists pre line post,
    lines = pre ++ line :: post /\ label_of line = Some l
    /\ Forall (fun line' => label_of line' <> Some l) post.
Proof.
  induction lines as [|x lines IH]; intros H; [inversion H|].
  destruct (decide (Exists (fun line => label_of line = Some l) lines)) as [Hex|Hno].
  - destruct (IH Hex) as (pre & line & post & -> & Hl & Hpost).
    exists (x :: pre), line, post. auto.
  - inversion H as [? ? Hx | ? ? Hx]; subst; [|contradiction].
    exists [], x, lines. split; [reflexivity|]. split; [assumption|].
    apply Forall_forall. intros y Hy Hl. apply Hno.
    apply Exists_exists. eauto.
Qed.

Lemma undefined_label_keeps_its_entry_aux g lines (l : string) :
  Forall (fun line => label_of line <> Some l) lines ->
  symbol_table (first_pass g lines) !! l = symbol_table g !! l.
Proof. intros H. unfold first_pass. simpl. now apply first_pass_loop_other. Qed.

Lemma defined_label_address_aux lines (l : string) :
  Exists (fun line => label_of line = Some l) lines ->
  exists a, forall g, symbol_table (first_pass g lines) !! l = Some a.
Proof.
  intros H. destruct (last_definition lines l H) as (pre & line & post & -> & Hl & Hpost).
  exists (4 * count_addresses pre). intros g.
  unfold first_pass. simpl. now apply first_pass_loop_label.
Qed.

(** X7. The first pass never removes an entry: a label that no line of the
    file defines keeps the address it had before the pass, also one left
    by an earlier run in the same process. *)
Theorem undefined_label_keeps_its_entry g lines (l : string) :
  Forall (fun line => label_of line <> Some l) lines ->
  symbol_table (first_pass g lines) !! l = symbol_table g !! l.
Proof. intros H. unfold first_pass. simpl. now apply first_pass_loop_other. Qed.

Lemma undefined_label_keeps_its_entry_witness :
  symbol_table (first_pass (first_pass fresh ["NOP"; "old: HLT"]) ["start: NOP"; "B old"])
    !! "old"
  = symbol_table (first_pass fresh ["NOP"; "old: HLT"]) !! "old".
Proof.
  apply (undefined_label_keeps_its_entry (first_pass fresh ["NOP"; "old: HLT"])
           ["start: NOP"; "B old"] "old").
  repeat constructor; vm_compute; discriminate.
Defined.

(** X8. The address of a label that the file defines does not depend on
    what the table held before: it is a multiple of 4, at least 0 and below
    four times the number of lines of the file. *)
Theorem defined_label_address g lines (l : string) :
  Exists (fun line => label_of line = Some l) lines ->
  exists a,
    symbol_table (first_pass g lines) !! l = Some a
    /\ a mod 4 = 0
    /\ 0 <= a < 4 * Z.of_nat (length lines)
    /\ forall g', symbol_table (first_pass g' lines) !! l = Some a.
Proof.
  intros H. destruct (last_definition lines l H) as (pre & line & post & -> & Hl & Hpost).
  exists (4 * count_addresses pre).
  assert (Hall : forall g0,
    symbol_table (first_pass g0 (pre ++ line :: post)) !! l
    = Some (4 * count_addresses pre)).
  { intros g0. unfold first_pass. simpl. now apply first_pass_loop_label. }
  split; [apply Hall|]. split; [|split; [|apply Hall]].
  - rewrite Z.mul_comm. apply Z.mod_mul. lia.
  - pose proof (count_addresses_nonneg pre).
    assert (count_addresses pre <= Z.of_nat (length pre)).
    { unfold count_addresses. pose proof (List.filter_length_le takes_address pre). lia. }
    rewrite List.length_app. simpl. lia.
Qed.

Lemma defined_label_address_witness :
  exists a,
    symbol_table (first_pass fresh ["NOP"; "x: NOP"; "x:"; "HLT"]) !! "x" = Some a
    /\ a mod 4 = 0
    /\ 0 <= a < 4 * Z.of_nat (length ["NOP"; "x: NOP"; "x:"; "HLT"])
    /\ forall g', symbol_table (first_pass g' ["NOP"; "x: NOP"; "x:"; "HLT"]) !! "x" = Some a.
Proof.
  apply (defined_label_address fresh ["NOP"; "x: NOP"; "x:"; "HLT"] "x").
  apply Exists_cons_tl, Exists_cons_hd. reflexivity.
Defined.

(** X9. Running the first pass again over the same file changes nothing:
    although the table is never cleared, assembling one file twice in one
    process resolves its labels alike. *)
Theorem first_pass_twice g lines :
  first_pass (first_pass g lines) lines = first_pass g lines.
Proof.
  unfold first_pass at 1 3. simpl last_cmp. f_equal.
  apply map_eq. intros l.
  change (symbol_table (first_pass (first_pass g lines) lines) !! l
          = symbol_table (first_pass g lines) !! l).
  destruct (decide (Exists (fun line => label_of line = Some l) lines)) as [Hex|Hno].
  - destruct (defined_label_address_aux lines l Hex) as (a & Ha).
    now rewrite !Ha.
  - apply undefined_label_keeps_its_entry_aux.
    apply Forall_forall. intros y Hy Hl. apply Hno. apply Exists_exists. eauto.
Qed.

Lemma first_pass_line_without_comment st (line : string) :
  first_pass_line st (Py.before "#" line) = first_pass_line st line.
Proof.
  destruct (Py.after "#" line) as [c|] eqn:E.
  - destruct (after_Some _ _ _ E) as [Hdec Hno].
    rewrite Hdec at 2. symmetry. now apply first_pass_ignores_comment.
  - now rewrite before_no_sep by (now apply after_None).
Qed.

(** X10. The first pass does not see comments: a file, and the file with
    the text from the first [#] of every line deleted, leave the same
    symbol table; and a line with nothing but white space in front of its
    comment leaves table and program counter as they are. *)
Theorem first_pass_without_comments g lines :
  first_pass g (map (Py.before "#") lines) = first_pass g lines
  /\ (forall st line,
        blank (Py.before "#" line) = true -> first_pass_line st line = st).
Proof.
  split.
  - unfold first_pass. f_equal. f_equal. unfold first_pass_loop.
    generalize (symbol_table g, 0). induction lines as [|l lines IH]; intros st;
      [reflexivity|].
    simpl. rewrite first_pass_line_without_comment. apply IH.
  - intros st line Hb. rewrite <- first_pass_line_without_comment.
    destruct st as [tbl pc]. unfold first_pass_line.
    apply strip_empty in Hb. now rewrite Hb.
Qed.

(** ** The layout of an instruction word *)

Lemma value_shift base (s : string) (a : Z) :
  value base a s = a * base ^ Z.of_nat (String.length s) + value base 0 s.
Proof.
  revert a. induction s as [|c r IH]; intros a.
  - simpl. lia.
  - simpl value. simpl String.length.
    rewrite Nat2Z.inj_succ, Z.pow_succ_r by lia.
    rewrite (IH (a * base + _)), (IH (0 * base + _)). ring.
Qed.

(** The number denoted by two digit strings set side by side. *)
Lemma value_concat base (s t : string) :
  value base 0 (s +:+ t)
  = value base 0 s * base ^ Z.of_nat (String.length t) + value base 0 t.
Proof. rewrite value_app. apply value_shift. Qed.

Lemma bit_field_digits n (s : string) :
  bit_field n s -> all_chars (is_digit_of 2) s = true.
Proof. intros [_ H]. revert H. apply all_chars_impl, is_bit_digit. Qed.

Lemma bit_field_app n m (s t : string) :
  bit_field n s -> bit_field m t -> bit_field (n + m) (s +:+ t).
Proof.
  intros [Hs Hsb] [Ht Htb]. split.
  - rewrite length_app. lia.
  - now rewrite bit_string_app, Hsb, Htb.
Qed.

Lemma imm_field_value (n : Z) :
  bit_field 18 (Py.format_int 2 18 (Z.land n 262143))
  /\ value 2 0 (Py.format_int 2 18 (Z.land n 262143)) = n mod 2 ^ 18.
Proof.
  destruct (imm_field n) as [Hl Hb]. split; [split; assumption|].
  pose proof (int_format_int 2 18 (Z.land n 262143) ltac:(auto)) as Hi.
  rewrite int_plain in Hi; auto.
  - injection Hi as ->. change 262143 with (Z.ones 18). apply Z.land_ones. lia.
  - intros E. rewrite E in Hl. discriminate.
  - revert Hb. apply all_chars_impl, is_bit_digit.
Qed.

Lemma int_2_bit_field n (s : string) :
  (0 < n)%nat -> bit_field n s -> Py.int 2 s = Some (value 2 0 s).
Proof.
  intros Hn Hs. apply int_plain; [auto | | eapply bit_field_digits; eauto].
  intros ->. destruct Hs as [Hl _]. simpl in Hl. lia.
Qed.

(** X11. The layout that [format_binary] packs, read as a number: the
    opcode in bits 31..27, the immediate flag in bit 26, [rd] in bits
    25..22, [rs1] in bits 21..18, and then either the immediate modulo 2^18
    (two's complement for a negative one) in bits 17..0, or [rs2] in bits
    17..14 above fourteen zero bits. *)
Theorem format_binary_layout opcode i rd rs1 rs2 (imm : Z) :
  bit_field 5 opcode -> bit_field 1 i -> bit_field 4 rd -> bit_field 4 rs1 ->
  bit_field 4 rs2 ->
  Py.int 2 (format_binary opcode i (Some rd) (Some rs1) (Some rs2) (Some imm))
  = Some (value 2 0 opcode * 2 ^ 27 + value 2 0 i * 2 ^ 26
          + value 2 0 rd * 2 ^ 22 + value 2 0 rs1 * 2 ^ 18 + imm mod 2 ^ 18)
  /\ Py.int 2 (format_binary opcode i (Some rd) (Some rs1) (Some rs2) None)
     = Some (value 2 0 opcode * 2 ^ 27 + value 2 0 i * 2 ^ 26
             + value 2 0 rd * 2 ^ 22 + value 2 0 rs1 * 2 ^ 18
             + value 2 0 rs2 * 2 ^ 14).
Proof.
  intros Ho Hi Hd H1 H2. destruct (imm_field_value imm) as [Hm Hmv].
  assert (Hz : bit_field 14 (Py.zeros 14)) by (split; reflexivity).
  unfold format_binary. cbn [Py.str_opt]. split.
  - pose proof (bit_field_app _ _ _ _ H1 Hm) as F1.
    pose proof (bit_field_app _ _ _ _ Hd F1) as F2.
    pose proof (bit_field_app _ _ _ _ Hi F2) as F3.
    pose proof (bit_field_app _ _ _ _ Ho F3) as F4.
    rewrite (int_2_bit_field 32 _ ltac:(lia) F4). f_equal.
    rewrite !value_concat, Hmv.
    destruct F3 as [-> _], F2 as [-> _], F1 as [-> _], Hm as [-> _].
    repeat match goal with
           | |- context [Z.of_nat ?n] =>
               let v := eval vm_compute in (Z.of_nat n) in
               change (Z.of_nat n) with v
           end.
    ring.
  - pose proof (bit_field_app _ _ _ _ H2 Hz) as F0.
    pose proof (bit_field_app _ _ _ _ H1 F0) as F1.
    pose proof (bit_field_app _ _ _ _ Hd F1) as F2.
    pose proof (bit_field_app _ _ _ _ Hi F2) as F3.
    pose proof (bit_field_app _ _ _ _ Ho F3) as F4.
    rewrite (int_2_bit_field 32 _ ltac:(lia) F4). f_equal.
    rewrite !value_concat.
    destruct F3 as [-> _], F2 as [-> _], F1 as [-> _], F0 as [-> _], Hz as [-> _].
    change (value 2 0 (Py.zeros 14)) with 0.
    repeat match goal with
           | |- context [Z.of_nat ?n] =>
               let v := eval vm_compute in (Z.of_nat n) in
               change (Z.of_nat n) with v
           end.
    ring.
Qed.

Lemma format_binary_layout_witness :
  Py.int 2 (format_binary "00000" "1" (Some "0001") (Some "0010") (Some "0000") (Some (-1)))
  = Some (value 2 0 "00000" * 2 ^ 27 + value 2 0 "1" * 2 ^ 26
          + value 2 0 "0001" * 2 ^ 22 + value 2 0 "0010" * 2 ^ 18 + (-1) mod 2 ^ 18)
  /\ Py.int 2 (format_binary "00000" "1" (Some "0001") (Some "0010") (Some "0000") None)
     = Some (value 2 0 "00000" * 2 ^ 27 + value 2 0 "1" * 2 ^ 26
             + value 2 0 "0001" * 2 ^ 22 + value 2 0 "0010" * 2 ^ 18
             + value 2 0 "0000" * 2 ^ 14).
Proof.
  apply (format_binary_layout "00000" "1" "0001" "0010" "0000" (-1));
    split; reflexivity.
Defined.

(** X12. The register table is the numbering of the registers: a token
    names a register exactly when, in upper case, it is [R] followed by a
    number from 0 to 15 in decimal, and its code is that number in four
    bits. *)
Theorem register_code_is_its_number (tok r : string) :
  reg tok = Some r
  <-> exists k, 0 <= k < 16 /\ Py.upper tok = "R" +:+ Py.to_base 10 k
                /\ r = Py.format_int 2 4 k.
Proof.
  split.
  - unfold reg, REGISTERS. simpl dict_get.
    repeat match goal with
    | |- context [String.eqb (Py.upper tok) ?k] =>
        destruct (String.eqb_spec (Py.upper tok) k) as [-> | _]
    end; try discriminate; intros [= <-].
    + exists 0. repeat split; lia.
    + exists 1. repeat split; lia.
    + exists 2. repeat split; lia.
    + exists 3. repeat split; lia.
    + exists 4. repeat split; lia.
    + exists 5. repeat split; lia.
    + exists 6. repeat split; lia.
    + exists 7. repeat split; lia.
    + exists 8. repeat split; lia.
    + exists 9. repeat split; lia.
    + exists 10. repeat split; lia.
    + exists 11. repeat split; lia.
    + exists 12. repeat split; lia.
    + exists 13. repeat split; lia.
    + exists 14. repeat split; lia.
    + exists 15. repeat split; lia.
  - intros (k & Hk & Hup & ->). unfold reg. rewrite Hup.
    assert (E : k = 0 \/ k = 1 \/ k = 2 \/ k = 3 \/ k = 4 \/ k = 5 \/ k = 6
                \/ k = 7 \/ k = 8 \/ k = 9 \/ k = 10 \/ k = 11 \/ k = 12
                \/ k = 13 \/ k = 14 \/ k = 15) by lia.
    repeat (destruct E as [-> | E]; [reflexivity|]). subst k. reflexivity.
Qed.

Lemma encode_opcode_prefix g line pc inst ops w g' :
  encode g line pc (inst :: ops) = (Return (Some w), g') ->
  exists opcode rest,
    dict_get OPCODES inst = Some opcode /\ w = opcode +:+ rest
    /\ String.length rest = 27%nat.
Proof.
  intros H. pose proof (encode_word _ _ _ _ _ _ H) as [Hlen _].
  revert H. unfold encode, imm18.
  destruct (dict_get OPCODES inst) as [opcode|] eqn:Eop; [|discriminate].
  destruct (OPCODES_entries _ _ Eop) as [Ho _]. intros H.
  assert (Hw : exists rest, w = opcode +:+ rest).
  { repeat (break_hyp H; try discriminate).
    all: injection H as <- <-.
    all: unfold format_binary, branch_word; eauto. }
  destruct Hw as [rest ->]. exists opcode, rest.
  rewrite length_app, Ho in Hlen. repeat split. lia.
Qed.

(** X13. Every word that the encoder returns begins with the five opcode
    bits that [OPCODES] gives for the mnemonic of the line, followed by 27
    more characters. *)
Theorem word_begins_with_opcode g line pc w g' :
  assemble_instruction g line pc = (Return (Some w), g') ->
  exists inst opcode rest,
    mnemonic line = Some inst /\ dict_get OPCODES inst = Some opcode
    /\ w = opcode +:+ rest /\ String.length rest = 27%nat.
Proof.
  unfold assemble_instruction, mnemonic. intros H.
  destruct (instruction_tokens line) as [|inst ops]; [discriminate|].
  destruct (encode_opcode_prefix _ _ _ _ _ _ _ H) as (opcode & rest & Ho & Hw & Hl).
  exists inst, opcode, rest. auto.
Qed.

Lemma word_begins_with_opcode_witness :
  exists inst opcode rest,
    mnemonic "top: CALL top" = Some inst /\ dict_get OPCODES inst = Some opcode
    /\ "10011111111111111111111111110100" = opcode +:+ rest
    /\ String.length rest = 27%nat.
Proof.
  apply (word_begins_with_opcode fresh "top: CALL top" 8
           "10011111111111111111111111110100" fresh).
  vm_compute. reflexivity.
Defined.

(** X14. The encoder returns no word exactly for a line on which it finds
    no token after a leading label (a blank line, commas, a label alone);
    such a call raises nothing and leaves the state as it is. *)
Theorem no_word_iff_no_tokens g line pc :
  ((exists g', assemble_instruction g line pc = (Return None, g'))
   <-> instruction_tokens line = [])
  /\ (instruction_tokens line = [] ->
      assemble_instruction g line pc = (Return None, g)).
Proof.
  unfold assemble_instruction. split; [split|].
  - intros [g' H]. now apply encode_none in H.
  - intros ->. eauto.
  - intros ->. reflexivity.
Qed.

(** ** Immediates *)

Lemma imm_char_plain (c : ascii) :
  imm_char c = true -> Py.isspace c = false /\ Ascii.eqb "x"%char c = false.
Proof. by_cases_on_char c; split; reflexivity. Qed.

Lemma all_digits_imm_chars (s : string) :
  Py.all_digits s = true -> all_chars imm_char s = true.
Proof.
  induction s as [|c s IH]; simpl; [reflexivity|].
  rewrite andb_true_iff. intros [Hc Hs]. unfold imm_char at 1.
  now rewrite Hc, orb_true_r, IH.
Qed.

Lemma is_immediate_chars (tok : string) :
  is_immediate tok = true -> all_chars imm_char tok = true.
Proof.
  unfold is_immediate. induction tok as [|c s IH]; [reflexivity|].
  simpl Py.lstrip_char. destruct (Ascii.eqb c "-") eqn:E.
  - intros H. simpl. unfold imm_char at 1. rewrite E. simpl. now apply IH.
  - intros H. apply (all_digits_imm_chars (String c s)). exact H.
Qed.

(** A token in immediate form has no white space and no [0x] prefix. *)
Lemma is_immediate_plain (tok : string) :
  is_immediate tok = true ->
  Py.strip tok = tok /\ Py.startswith "0x" tok = false.
Proof.
  intros H. apply is_immediate_chars in H. split.
  - apply strip_no_space. revert H. apply all_chars_impl.
    intros c Hc. unfold not_space. now destruct (imm_char_plain c Hc) as [-> _].
  - destruct tok as [|a [|b r]]; cbn [Py.startswith]; try reflexivity.
    + now rewrite andb_false_r.
    + simpl in H. apply andb_true_iff in H as [_ H].
      apply andb_true_iff in H as [Hb _].
      destruct (imm_char_plain b Hb) as [_ ->].
      now rewrite andb_false_r.
Qed.






Lemma shifted_mask (v : Z) : Z.land (Z.shiftl v 16) 262143 = v mod 4 * 65536.
Proof.
  change 262143 with (Z.ones 18).
  rewrite Z.land_ones, Z.shiftl_mul_pow2 by lia.
  change (2 ^ 18) with (4 * 2 ^ 16). rewrite Z.mul_mod_distr_r by lia.
  reflexivity.
Qed.

(** X16. [MOVH] keeps two bits of its operand: the value is shifted left by
    16 and then cut to the 18 bits of the immediate field, so the word
    carries [(v mod 4) * 65536], and operands that agree modulo 4 give the
    same word. *)
Theorem movh_keeps_two_bits g line pc p1 p2 v :
  instruction_tokens line = ["MOVH"; p1; p2] ->
  Py.int (if Py.startswith "0x" p2 then 16 else 10) p2 = Some v ->
  assemble_instruction g line pc
  = (Return (Some (format_binary "01001" "1" (reg p1) (Some "0000") (Some "0000")
                     (Some (v mod 4 * 65536)))), g).
Proof.
  intros Ht Hv. unfold assemble_instruction. rewrite Ht.
  rewrite encode_wide_move by (right; reflexivity).
  assert (Hs : Py.strip p2 = p2).
  { apply strip_no_space. pose proof (instruction_tokens_no_space line) as H.
    rewrite Ht in H. rewrite !Forall_cons in H. tauto. }
  rewrite Hs, Hv. simpl String.eqb. cbv iota. now rewrite shifted_mask.
Qed.

Lemma movh_keeps_two_bits_witness :
  assemble_instruction fresh "MOVH R1, 0xABCD" 0
  = (Return (Some (format_binary "01001" "1" (reg "R1") (Some "0000") (Some "0000")
                     (Some (43981 mod 4 * 65536)))), fresh).
Proof.
  apply (movh_keeps_two_bits fresh "MOVH R1, 0xABCD" 0 "R1" "0xABCD" 43981);
    reflexivity.
Defined.

(** X17. [MOV] and [MOVU] share an opcode and, for a decimal immediate from
    0 to 65535, the whole word: the two lines cannot be told apart in the
    output. *)
Theorem mov_and_movu_coincide g line1 line2 pc p1 p2 v :
  instruction_tokens line1 = ["MOV"; p1; p2] ->
  instruction_tokens line2 = ["MOVU"; p1; p2] ->
  is_immediate p2 = true ->
  Py.int 10 p2 = Some v ->
  0 <= v < 65536 ->
  exists w,
    assemble_instruction g line1 pc = (Return (Some w), g)
    /\ assemble_instruction g line2 pc = (Return (Some w), g).
Proof.
  intros Ht1 Ht2 Hi Hv Hr.
  destruct (is_immediate_plain p2 Hi) as [Hs Hx].
  assert (E : Z.land (Z.land v 262143) 262143 = Z.land (Z.land v 65535) 262143).
  { change 262143 with (Z.ones 18). change 65535 with (Z.ones 16).
    rewrite !Z.land_ones by lia. rewrite !(Z.mod_small v) by lia. reflexivity. }
  assert (E1 : encode g line1 pc ["MOV"; p1; p2]
               = if is_immediate p2 then
                   imm18 p2 (fun imm =>
                     (Return (Some (format_binary "01001" "1" (reg p1) (Some "0000")
                                      (Some "0000") (Some imm))), g)) g
                 else
                   (Return (Some (format_binary "01001" "0" (reg p1) (Some "0000")
                                    (reg p2) None)), g)) by reflexivity.
  exists (format_binary "01001" "1" (reg p1) (Some "0000") (Some "0000")
            (Some (Z.land v 262143))).
  unfold assemble_instruction. rewrite Ht1, Ht2. split.
  - rewrite E1, Hi. unfold imm18. now rewrite Hv.
  - rewrite (encode_wide_move g line2 pc "MOVU" p1 p2) by (left; reflexivity).
    rewrite Hs, Hx, Hv. simpl String.eqb. cbv iota.
    unfold format_binary. now rewrite E.
Qed.

Lemma mov_and_movu_coincide_witness :
  exists w,
    assemble_instruction fresh "MOV R3 500" 0 = (Return (Some w), fresh)
    /\ assemble_instruction fresh "MOVU R3 500" 0 = (Return (Some w), fresh).
Proof.
  apply (mov_and_movu_coincide fresh "MOV R3 500" "MOVU R3 500" 0 "R3" "500" 500);
    try reflexivity. lia.
Defined.

(** ** References to labels *)

Lemma encode_branch g line pc inst label :
  In inst ["BEQ"; "BGT"; "B"; "CALL"] ->
  (inst = "BEQ" \/ inst = "BGT" -> is_Some (last_cmp g)) ->
  exists opcode,
    dict_get OPCODES inst = Some opcode
    /\ encode g line pc [inst; label]
       = (Return (Some (branch_word g opcode label pc)), g).
Proof.
  intros Hin Hcmp. simpl in Hin.
  destruct Hin as [<- | [<- | [<- | [<- | []]]]].
  1, 2: destruct Hcmp as [v Hv]; [auto|].
  all: eexists; split; [reflexivity|].
  all: unfold encode; simpl; rewrite ?Hv; reflexivity.
Qed.

(** X18. Forward and backward references alike: a branch or call that the
    run reaches, to a label whose last definition has the lines [before] in
    front of it, carries in its 27-bit field, modulo 2^27, the distance in
    bytes from the word after the branch to the place where the encoder
    emits the word that follows the label: four times the number of lines
    with an instruction in front of the label, less those in front of the
    branch and the branch itself.  This needs the run to get through the
    lines in front of the label and in front of the branch, and the two
    passes to agree on which of those lines carry an instruction. *)
Theorem branch_field_is_distance g lines pre line inst label before defline rest :
  lines = before ++ defline :: rest ->
  label_of defline = Some label ->
  Forall (fun l => label_of l <> Some label) rest ->
  failure (run_prefix g lines pre) = None ->
  Forall (fun l => takes_address l = has_instruction l) pre ->
  failure (run_prefix g lines before) = None ->
  Forall (fun l => takes_address l = has_instruction l) before ->
  instruction_tokens line = [inst; label] ->
  In inst ["BEQ"; "BGT"; "B"; "CALL"] ->
  (inst = "BEQ" \/ inst = "BGT" ->
   is_Some (last_cmp (final_globals (run_prefix g lines pre)))) ->
  exists opcode field,
    dict_get OPCODES inst = Some opcode
    /\ outcome_after g lines pre line = Return (Some (opcode +:+ field))
    /\ String.length field = 27%nat
    /\ Py.int 2 field
       = Some ((final_pc (run_prefix g lines before)
                - (final_pc (run_prefix g lines pre) + 4)) mod 2 ^ 27)
    /\ final_pc (run_prefix g lines before)
       = 4 * Z.of_nat (length (List.filter has_instruction before))
    /\ final_pc (run_prefix g lines pre)
       = 4 * Z.of_nat (length (List.filter has_instruction pre)).
Proof.
  intros Hl Hdef Hrest Hf Hagree Hfb Hagreeb Ht Hin Hcmp.
  assert (Hpcb : final_pc (run_prefix g lines before)
                 = 4 * Z.of_nat (length (List.filter has_instruction before))).
  { unfold run_prefix in *. rewrite (assemble_loop_pc _ _ _ _ _ Hfb). lia. }
  assert (Hpcp : final_pc (run_prefix g lines pre)
                 = 4 * Z.of_nat (length (List.filter has_instruction pre))).
  { unfold run_prefix in *. rewrite (assemble_loop_pc _ _ _ _ _ Hf). lia. }
  unfold outcome_after, assemble_instruction. cbv zeta. rewrite Ht.
  destruct (encode_branch (final_globals (run_prefix g lines pre)) line
              (final_pc (run_prefix g lines pre)) inst label Hin Hcmp)
    as (opcode & Hop & ->).
  exists opcode. eexists. split; [exact Hop|]. split; [reflexivity|].
  assert (Htab : symbol_table (final_globals (run_prefix g lines pre)) !! label
                 = Some (final_pc (run_prefix g lines before))).
  { rewrite (passes_agree_on_address g lines before Hfb Hagreeb), first_pass_pc_spec.
    unfold run_prefix. rewrite assemble_loop_symbol_table, Hl.
    unfold first_pass. simpl. now apply first_pass_loop_label. }
  rewrite Htab. simpl default.
  destruct (branch_field (final_pc (run_prefix g lines before)
                          - (final_pc (run_prefix g lines pre) + 4)))
    as (Hlen & _ & Hint).
  split; [exact Hlen|]. split; [exact Hint|]. split; assumption.
Qed.

Lemma branch_field_is_distance_witness :
  exists opcode field,
    dict_get OPCODES "BGT" = Some opcode
    /\ outcome_after fresh ["CMP R1 R2"; "BGT done"; "ADD R1 R1 1"; "B 0"; "done:"; "HLT"]
         ["CMP R1 R2"] "BGT done"
       = Return (Some (opcode +:+ field))
    /\ String.length field = 27%nat
    /\ Py.int 2 field
       = Some ((final_pc (run_prefix fresh
                            ["CMP R1 R2"; "BGT done"; "ADD R1 R1 1"; "B 0"; "done:"; "HLT"]
                            ["CMP R1 R2"; "BGT done"; "ADD R1 R1 1"; "B 0"])
                - (final_pc (run_prefix fresh
                               ["CMP R1 R2"; "BGT done"; "ADD R1 R1 1"; "B 0"; "done:"; "HLT"]
                               ["CMP R1 R2"]) + 4)) mod 2 ^ 27)
    /\ final_pc (run_prefix fresh
                   ["CMP R1 R2"; "BGT done"; "ADD R1 R1 1"; "B 0"; "done:"; "HLT"]
                   ["CMP R1 R2"; "BGT done"; "ADD R1 R1 1"; "B 0"])
       = 4 * Z.of_nat (length (List.filter has_instruction
                                 ["CMP R1 R2"; "BGT done"; "ADD R1 R1 1"; "B 0"]))
    /\ final_pc (run_prefix fresh
                   ["CMP R1 R2"; "BGT done"; "ADD R1 R1 1"; "B 0"; "done:"; "HLT"]
                   ["CMP R1 R2"])
       = 4 * Z.of_nat (length (List.filter has_instruction ["CMP R1 R2"])).
Proof.
  apply (branch_field_is_distance fresh
           ["CMP R1 R2"; "BGT done"; "ADD R1 R1 1"; "B 0"; "done:"; "HLT"]
           ["CMP R1 R2"] "BGT done" "BGT" "done"
           ["CMP R1 R2"; "BGT done"; "ADD R1 R1 1"; "B 0"] "done:" ["HLT"]).
  - reflexivity.
  - reflexivity.
  - repeat constructor; vm_compute; discriminate.
  - vm_compute. reflexivity.
  - repeat constructor.
  - vm_compute. reflexivity.
  - repeat constructor.
  - reflexivity.
  - simpl. auto.
  - intros _. vm_compute. eauto.
Defined.

(** The case that the agreement on the lines in front of the label rules
    out: a line of commas between branch and label, counted by the first
    pass only. *)
Example branch_over_a_comma_line :
  takes_address "," = true /\ has_instruction "," = false
  /\ outcome_after fresh ["B x"; ","; "x: NOP"; "HLT"] [] "B x"
     = Return (Some "10010000000000000000000000000100")
  /\ final_pc (run_prefix fresh ["B x"; ","; "x: NOP"; "HLT"] ["B x"; ","]) = 4.
Proof. vm_compute. repeat split. Qed.

(** ** A label in front of an instruction *)

Lemma str_app_nil_r (s : string) : s +:+ EmptyString = s.
Proof. induction s as [|c s IH]; simpl; [reflexivity | now rewrite IH]. Qed.

Lemma str_app_assoc (s t u : string) : (s +:+ t) +:+ u = s +:+ (t +:+ u).
Proof. induction s as [|c s IH]; simpl; [reflexivity | now rewrite IH]. Qed.

(** [split] reads a run of characters up to white space as one token. *)
Lemma split_from_token (tok cur : string) (sp : ascii) (rest : string) :
  Py.isspace sp = true -> all_chars not_space tok = true ->
  cur +:+ tok <> EmptyString ->
  Py.split_from cur (tok +:+ String sp rest)
  = (cur +:+ tok) :: Py.split_from EmptyString rest.
Proof.
  intros Hsp. revert cur. induction tok as [|c t IH]; intros cur Ht Hne.
  - rewrite str_app_nil_r in *. simpl. rewrite Hsp.
    destruct cur; [congruence | reflexivity].
  - simpl in Ht. apply andb_true_iff in Ht as [Hc Ht].
    unfold not_space in Hc. apply negb_true_iff in Hc.
    simpl. rewrite Hc.
    rewrite (IH (cur +:+ String c EmptyString) Ht).
    + now rewrite str_app_assoc.
    + rewrite str_app_assoc. simpl. exact Hne.
Qed.

Lemma remove_char_app ch (s t : string) :
  Py.remove_char ch (s +:+ t) = Py.remove_char ch s +:+ Py.remove_char ch t.
Proof.
  induction s as [|c s IH]; simpl; [reflexivity|].
  destruct (Ascii.eqb c ch); simpl; now rewrite IH.
Qed.

Lemma remove_char_absent ch (s : string) :
  no_char ch s = true -> Py.remove_char ch s = s.
Proof.
  unfold no_char. induction s as [|c s IH]; simpl; [reflexivity|].
  rewrite andb_true_iff. intros [Hc Hs]. apply negb_true_iff in Hc.
  now rewrite Hc, IH.
Qed.

Lemma endswith_char_snoc ch (s : string) :
  Py.endswith_char ch (s +:+ String ch EmptyString) = true.
Proof.
  induction s as [|c s IH]; simpl; [apply Ascii.eqb_refl|].
  destruct (s +:+ String ch EmptyString) eqn:E; [|exact IH].
  destruct s; discriminate.
Qed.

(** No mnemonic ends with a colon. *)
Lemma OPCODES_no_colon inst opcode :
  dict_get OPCODES inst = Some opcode -> Py.endswith_char ":" inst = false.
Proof.
  unfold OPCODES. simpl.
  repeat match goal with
         | |- context [String.eqb inst ?k] =>
             destruct (String.eqb_spec inst k) as [-> | _]; [reflexivity|]
         end.
  discriminate.
Qed.

(** X19. One label, and only one, is dropped in front of an instruction.
    On a line [name: body] the encoder reads the tokens of [body]; it
    returns what it returns on [body] alone unless [body] begins with a
    label of its own, and then that second label is an unknown
    instruction. *)
Theorem one_label_per_line g name body pc :
  all_chars not_space name = true ->
  no_char "," name = true ->
  instruction_tokens (name +:+ ": " +:+ body) = Py.split (Py.remove_char "," body)
  /\ (forall t ts,
        Py.split (Py.remove_char "," body) = t :: ts ->
        Py.endswith_char ":" t = true ->
        assemble_instruction g (name +:+ ": " +:+ body) pc
        = (Raise (UnknownInstruction t), g))
  /\ ((forall t ts,
         Py.split (Py.remove_char "," body) = t :: ts ->
         Py.endswith_char ":" t = false) ->
      forall r g',
        assemble_instruction g (name +:+ ": " +:+ body) pc = (Return r, g')
        <-> assemble_instruction g body pc = (Return r, g')).
Proof.
  intros Hname Hcomma.
  assert (Htok : instruction_tokens (name +:+ ": " +:+ body)
                 = Py.split (Py.remove_char "," body)).
  { unfold instruction_tokens.
    rewrite !remove_char_app, (remove_char_absent _ _ Hcomma).
    change (Py.remove_char "," ": ") with ": ".
    change (name +:+ ": " +:+ Py.remove_char "," body)
      with (name +:+ String ":" (String " " (Py.remove_char "," body))).
    replace (name +:+ String ":" (String " " (Py.remove_char "," body)))
      with ((name +:+ String ":" EmptyString) +:+ String " " (Py.remove_char "," body))
      by (now rewrite str_app_assoc).
    unfold Py.split at 1.
    rewrite split_from_token; [| reflexivity | | ].
    - change (EmptyString +:+ (name +:+ String ":" EmptyString))
        with (name +:+ String ":" EmptyString).
      cbv beta iota. now rewrite endswith_char_snoc.
    - rewrite all_chars_snoc, Hname. reflexivity.
    - simpl. destruct name; discriminate. }
  split; [exact Htok|]. split.
  - intros t ts Hs Hend. unfold assemble_instruction. rewrite Htok, Hs.
    unfold encode. destruct (dict_get OPCODES t) as [opcode|] eqn:E; [|reflexivity].
    apply OPCODES_no_colon in E. congruence.
  - intros Hno r g'. unfold assemble_instruction. rewrite Htok.
    assert (Hb : instruction_tokens body = Py.split (Py.remove_char "," body)).
    { unfold instruction_tokens.
      destruct (Py.split (Py.remove_char "," body)) as [|t ts] eqn:E; [reflexivity|].
      now rewrite (Hno t ts eq_refl). }
    rewrite Hb. split; apply encode_return_any_line.
Qed.

Lemma one_label_per_line_witness :
  instruction_tokens ("loop" +:+ ": " +:+ "inner: ADD R1, R1, 1")
  = Py.split (Py.remove_char "," "inner: ADD R1, R1, 1")
  /\ (forall t ts,
        Py.split (Py.remove_char "," "inner: ADD R1, R1, 1") = t :: ts ->
        Py.endswith_char ":" t = true ->
        assemble_instruction fresh ("loop" +:+ ": " +:+ "inner: ADD R1, R1, 1") 0
        = (Raise (UnknownInstruction t), fresh))
  /\ ((forall t ts,
         Py.split (Py.remove_char "," "inner: ADD R1, R1, 1") = t :: ts ->
         Py.endswith_char ":" t = false) ->
      forall r g',
        assemble_instruction fresh ("loop" +:+ ": " +:+ "inner: ADD R1, R1, 1") 0
        = (Return r, g')
        <-> assemble_instruction fresh "inner: ADD R1, R1, 1" 0 = (Return r, g')).
Proof.
  apply (one_label_per_line fresh "loop" "inner: ADD R1, R1, 1" 0); reflexivity.
Defined.

(** ** Calls that fail *)

(** X20. A call of the encoder changes the module-level state only when the
    line carries a [CMP] and a word is returned; in particular a call that
    raises, whatever the error, leaves the state as it was. *)
Theorem only_cmp_changes_the_state g line pc o g' :
  assemble_instruction g line pc = (o, g') ->
  g' <> g ->
  mnemonic line = Some "CMP" /\ exists w, o = Return (Some w).
Proof.
  unfold assemble_instruction, mnemonic. intros H Hne.
  destruct (encode_globals _ _ _ _ _ _ H) as [-> | (p1 & p2 & d & w & Hp & -> & _)];
    [contradiction|].
  rewrite Hp. split; [reflexivity | eauto].
Qed.

Lemma only_cmp_changes_the_state_witness :
  mnemonic "CMP R1, 7" = Some "CMP"
  /\ exists w, Return (Some "00101100000001000000000000000111") = Return (Some w).
Proof.
  apply (only_cmp_changes_the_state fresh "CMP R1, 7" 0
           (Return (Some "00101100000001000000000000000111"))
           {| symbol_table := ∅; last_cmp := Some (Some "0001", Some "7") |}).
  - vm_compute. reflexivity.
  - intros H. discriminate H.
Defined.
